(** * find_asserts.py: resolving packages, fetching sources, collecting asserts

    A shallow embedding of [src/find_asserts.py].  Python [str] values are
    [string]s whose characters are read as code points below 256; [dict]s keep
    their insertion order and are association lists; the effects of the
    coroutines (console output, progress display, network, subprocesses, file
    system, result file) are recorded as a trace of events, and a raised
    exception is an explicit outcome. *)

From Stdlib Require Import String Ascii List ZArith Lia Bool Arith.
Import ListNotations.
Open Scope string_scope.

(* ================================================================= *)
(** ** Python string operations used by the program *)

Module PyStr.

(** [s.startswith(p)] *)
Definition startswith (p s : string) : bool := String.prefix p s.

Fixpoint rev_onto (s acc : string) : string :=
  match s with
  | EmptyString => acc
  | String c s' => rev_onto s' (String c acc)
  end.

Definition rev (s : string) : string := rev_onto s "".

(** [s.endswith(suf)] *)
Definition endswith (suf s : string) : bool :=
  String.prefix (rev suf) (rev s).

(** [sub in s] *)
Fixpoint contains (sub s : string) : bool :=
  match s with
  | EmptyString => String.prefix sub ""
  | String _ s' => String.prefix sub s || contains sub s'
  end.

(** [s.split(sep)] for a separator of one character. *)
Fixpoint split (sep : ascii) (s : string) : list string :=
  match s with
  | EmptyString => [""]
  | String c s' =>
      if Ascii.eqb c sep then "" :: split sep s'
      else match split sep s' with
           | h :: t => String c h :: t
           | [] => [String c ""]
           end
  end.

(** [l[-1]] on a list that [split] produced (never empty). *)
Definition last_item (l : list string) : string := List.last l "".

Definition upper_ascii (n : nat) : bool :=
  ((65 <=? n) && (n <=? 90))%nat.

(** Upper-case letters of Latin-1 above ASCII: U+00C0..U+00DE without the
    multiplication sign U+00D7. *)
Definition upper_latin1 (n : nat) : bool :=
  ((192 <=? n) && (n <=? 222) && negb (n =? 215))%nat.

Definition lower_char (c : ascii) : ascii :=
  let n := nat_of_ascii c in
  if upper_ascii n || upper_latin1 n then ascii_of_nat (n + 32) else c.

(** [s.lower()] *)
Fixpoint lower (s : string) : string :=
  match s with
  | EmptyString => EmptyString
  | String c s' => String (lower_char c) (lower s')
  end.

(** [c.isspace()] for a code point below 256: TAB, LF, VT, FF, CR, the four
    separators FS, GS, RS, US, the space, NEL and the no-break space. *)
Definition isspace (c : ascii) : bool :=
  let n := nat_of_ascii c in
  (((9 <=? n) && (n <=? 13)) || ((28 <=? n) && (n <=? 32))
   || (n =? 133) || (n =? 160))%nat.

Fixpoint lstrip (s : string) : string :=
  match s with
  | EmptyString => EmptyString
  | String c s' => if isspace c then lstrip s' else s
  end.

Fixpoint rstrip (s : string) : string :=
  match s with
  | EmptyString => EmptyString
  | String c s' =>
      match rstrip s' with
      | EmptyString => if isspace c then EmptyString else String c EmptyString
      | r => String c r
      end
  end.

(** [s.strip()] *)
Definition strip (s : string) : string := rstrip (lstrip s).

(** [s.replace(old, new)] for a non-empty [old]: the occurrences of [old]
    are found from left to right and do not overlap.  [skip] counts the
    characters of an occurrence that are still to be dropped. *)
Fixpoint replace_from (skip : nat) (old new s : string) : string :=
  match s with
  | EmptyString => EmptyString
  | String c s' =>
      match skip with
      | S k => replace_from k old new s'
      | O =>
          if String.prefix old s
          then new ++ replace_from (String.length old - 1) old new s'
          else String c (replace_from 0 old new s')
      end
  end.

Definition replace (old new s : string) : string := replace_from 0 old new s.

(** Truth value of a string: [bool(s)]. *)
Definition truthy (s : string) : bool := negb (String.eqb s "").

End PyStr.

(** [os.path] on POSIX. *)
Module Posixpath.

(** [os.path.join(a, b)] *)
Definition join (a b : string) : string :=
  if PyStr.startswith "/" b then b
  else if String.eqb a "" || PyStr.endswith "/" a then a ++ b
  else a ++ "/" ++ b.

(** [os.path.basename(p)]: what follows the last slash. *)
Definition basename (p : string) : string :=
  PyStr.last_item (PyStr.split "/" p).

End Posixpath.

(* ================================================================= *)
(** ** The regular expression of [get_github_url] *)

(** The part of [re] that the program's pattern needs: a pattern is a sequence
    of single-character items, each taken once, optionally ([?]) or one or
    more times ([+]); the quantifiers are greedy and the matcher backtracks,
    as [re] does. *)
Module Re.

Inductive item : Type :=
| Char (c : ascii)                (* a literal character *)
| NoneOf (cs : list ascii).       (* [^...] *)

Inductive quant : Type := Once | Optional | OneOrMore.

Definition pattern : Type := list (item * quant).

Definition accepts (i : item) (c : ascii) : bool :=
  match i with
  | Char a => Ascii.eqb a c
  | NoneOf cs => negb (existsb (Ascii.eqb c) cs)
  end.

Definition or_else {A} (a b : option A) : option A :=
  match a with Some _ => a | None => b end.

(** [i+] followed by the rest of the pattern, [k]: take a character, then
    prefer taking more, and fall back on the rest. *)
Fixpoint many1 (i : item) (k : string -> option nat) (s : string)
  : option nat :=
  match s with
  | String c s' =>
      if accepts i c then option_map S (or_else (many1 i k s') (k s'))
      else None
  | EmptyString => None
  end.

(** [match_here p s]: the number of characters of [s] that the first
    successful way of matching [p] at the start of [s] consumes. *)
Fixpoint match_here (p : pattern) (s : string) {struct p} : option nat :=
  match p with
  | [] => Some 0
  | (i, Once) :: p' =>
      match s with
      | String c s' =>
          if accepts i c then option_map S (match_here p' s') else None
      | EmptyString => None
      end
  | (i, Optional) :: p' =>
      match s with
      | String c s' =>
          if accepts i c
          then or_else (option_map S (match_here p' s')) (match_here p' s)
          else match_here p' s
      | EmptyString => match_here p' s
      end
  | (i, OneOrMore) :: p' => many1 i (match_here p') s
  end.

Fixpoint lits (s : string) : pattern :=
  match s with
  | EmptyString => []
  | String c s' => (Char c, Once) :: lits s'
  end.

(** [re.compile(p).match(s)] followed by [.group(0)]. *)
Definition match_prefix (p : pattern) (s : string) : option string :=
  option_map (fun n => String.substring 0 n s) (match_here p s).

End Re.

(** [re.compile(r'(https?://github\.com/[^/]+/[^/]+)')]: the one group spans
    the whole pattern, so [group(1)] is the matched text.  [after_scheme] is
    the pattern from [://] on. *)
Definition after_scheme : Re.pattern :=
  (Re.lits "://github.com/"
   ++ [(Re.NoneOf ["/"%char], Re.OneOrMore); (Re.Char "/", Re.Once);
       (Re.NoneOf ["/"%char], Re.OneOrMore)])%list.

Definition regexp : Re.pattern :=
  (Re.lits "http" ++ (Re.Char "s", Re.Optional) :: after_scheme)%list.

(** [m = regexp.match(value)] and, when it matched, [m.group(1)]. *)
Definition regexp_match (value : string) : option string :=
  Re.match_prefix regexp value.

(* ================================================================= *)
(** ** Dictionaries of strings *)

(** A [dict] from [str] to [str] in its iteration (insertion) order. *)
Definition dict : Type := list (string * string).

(** [d.get(k)]; [None] stands for Python's [None]. *)
Fixpoint dict_get (d : dict) (k : string) : option string :=
  match d with
  | [] => None
  | (k', v) :: d' => if String.eqb k' k then Some v else dict_get d' k
  end.

(** [d.values()] *)
Definition dict_values (d : dict) : list string := map snd d.

(** [a or b] on values that are [None] or a [str]. *)
Definition py_or (a b : option string) : option string :=
  match a with
  | Some s => if PyStr.truthy s then a else b
  | None => b
  end.

(* ================================================================= *)
(** ** Resolving the repository URL from [project_urls] (lines 29-45) *)

Definition possible_keys : list string :=
  ["Source"; "Code"; "Repository"; "GitHub: repo"; "Source Code"; "Homepage";
   "GitHub"].

Definition possible_issue_keys : list string :=
  ["Issues"; "Bug Tracker"; "Bug Reports"].

(** The loop of lines 31-34: the first value that the pattern matches. *)
Fixpoint first_regexp_match (values : list string) : option string :=
  match values with
  | [] => None
  | value :: rest =>
      match regexp_match value with
      | Some group1 => Some group1
      | None => first_regexp_match rest
      end
  end.

(** [project_urls.get(key) or project_urls.get(key.lower())] *)
Definition lookup_key (project_urls : dict) (key : string) : option string :=
  py_or (dict_get project_urls key) (dict_get project_urls (PyStr.lower key)).

(** [url and 'github.com' in url] *)
Definition is_github (url : option string) : bool :=
  match url with
  | Some u => PyStr.truthy u && PyStr.contains "github.com" u
  | None => false
  end.

(** The loops of lines 37-40 and 41-44 up to what they return: the value
    found for the first key whose value mentions github.com. *)
Fixpoint first_github_key (project_urls : dict) (keys : list string)
  : option string :=
  match keys with
  | [] => None
  | key :: rest =>
      let url := lookup_key project_urls key in
      if is_github url then url else first_github_key project_urls rest
  end.

(** Lines 29-45 of [get_github_url], for the [project_urls] of a response
    with status 200. *)
Definition resolve_project_urls (project_urls : dict) : string :=
  match first_regexp_match (dict_values project_urls) with
  | Some group1 => group1
  | None =>
      match first_github_key project_urls possible_keys with
      | Some url => url
      | None =>
          match first_github_key project_urls possible_issue_keys with
          | Some issue_url => PyStr.replace "/issues" "" issue_url
          | None => ""
          end
      end
  end.

(* ================================================================= *)
(** ** Exceptions, effects and the monad of the coroutines *)

(** The exceptions that can travel through the program.  All of them are
    subclasses of [Exception]; [OtherException] stands for any class not
    named here (network, operating system and decoding errors). *)
Inductive exn : Type :=
| SyntaxError (msg : string)
| ValueError (msg : string)
| KeyError (key : string)
| TypeError (msg : string)
| AttributeError (msg : string)
| OtherException (cls msg : string).

(** [str(e)] *)
Definition exn_str (e : exn) : string :=
  match e with
  | SyntaxError m | ValueError m | TypeError m | AttributeError m => m
  | KeyError k => "'" ++ k ++ "'"
  | OtherException _ m => m
  end.

Definition is_SyntaxError (e : exn) : bool :=
  match e with SyntaxError _ => true | _ => false end.

(** How a call ends: it returns a value or it raises. *)
Inductive outcome (A : Type) : Type :=
| Ret (a : A)
| Raise (e : exn).
Arguments Ret {A} a.
Arguments Raise {A} e.

(** [rich]'s [TaskID] is an [int]; the ids handed out are never negative. *)
Definition TaskID : Type := nat.

(** What a coroutine does to the world, in the order it does it.  A call into
    a collaborator is recorded when it completes. *)
Inductive event : Type :=
| Stdout (line : string)
| Acquire                                   (* semaphore entered *)
| Release                                   (* semaphore left *)
| HttpGet (url : string)
| SaveFile (path : string)
| Makedirs (path : string)
| ExtractTar (archive dest : string)
| ExtractZip (archive dest : string)
| GitClone (url dir : string)
| Walk (dir : string)
| ReadParse (path : string)
| AddTask (description : string) (total : nat) (task : TaskID)
| Advance (task : TaskID) (n : nat)         (* progress.update(task, advance=n) *)
| RemoveTask (task : TaskID)
| Yield                                     (* await asyncio.sleep(0) *)
| SinkWrite (package : string) (asserts : list string)
| SinkFlush.

(** A computation: the events it performed and how it ended. *)
Definition M (A : Type) : Type := (list event * outcome A)%type.

Definition ret {A} (a : A) : M A := ([], Ret a).

Definition raise {A} (e : exn) : M A := ([], Raise e).

Definition bind {A B} (m : M A) (k : A -> M B) : M B :=
  match m with
  | (t, Ret a) => let (t', r) := k a in ((t ++ t')%list, r)
  | (t, Raise e) => (t, Raise e)
  end.

Declare Scope py_scope.
Delimit Scope py_scope with py.
Notation "x <- m ;; k" := (bind m (fun x => k))
  (at level 61, m at next level, right associativity) : py_scope.
Notation "m ;; k" := (bind m (fun _ => k))
  (at level 61, right associativity) : py_scope.
Open Scope py_scope.

Definition emit (ev : event) : M unit := ([ev], Ret tt).

(** A call into a collaborator whose outcome the world decides. *)
Definition call {A} (ev : event) (o : outcome A) : M A :=
  match o with
  | Ret a => ([ev], Ret a)
  | Raise e => ([], Raise e)
  end.

Definition lift {A} (o : outcome A) : M A := ([], o).

(** [try: m  except Exception as e: h e] *)
Definition try_except {A} (m : M A) (h : exn -> M A) : M A :=
  match m with
  | (t, Ret a) => (t, Ret a)
  | (t, Raise e) => let (t', r) := h e in ((t ++ t')%list, r)
  end.

(** [try: m  except SyntaxError: h] *)
Definition try_except_SyntaxError {A} (m : M A) (h : M A) : M A :=
  match m with
  | (t, Raise e) =>
      if is_SyntaxError e then let (t', r) := h in ((t ++ t')%list, r)
      else (t, Raise e)
  | _ => m
  end.

(** [async with semaphore: m]: the permit is given back however [m] ends. *)
Definition with_semaphore {A} (m : M A) : M A :=
  let (t, r) := m in ((Acquire :: t ++ [Release])%list, r).

Definition trace {A} (m : M A) : list event := fst m.
Definition result {A} (m : M A) : outcome A := snd m.

(* ================================================================= *)
(** ** The metadata of the package index *)

(** A member of a JSON object: not there, [null], or a value. *)
Inductive jfield (A : Type) : Type :=
| Missing
| JNull
| Present (a : A).
Arguments Missing {A}.
Arguments JNull {A}.
Arguments Present {A} a.

Record pypi_info : Type := {
  project_urls : jfield dict;
  version : jfield string
}.

Record url_info : Type := {
  packagetype : string;
  url : string
}.

Record pypi_data : Type := {
  info : jfield pypi_info;
  releases : jfield (list (string * list url_info))
}.

(** An [aiohttp] response: its status and how awaiting its body ends. *)
Record response (A : Type) : Type := {
  status : Z;
  body : outcome A
}.
Arguments status {A} r.
Arguments body {A} r.

Definition no_such_attribute (name : string) : exn :=
  AttributeError ("'NoneType' object has no attribute '" ++ name ++ "'").

(** [get_github_url(session, package_name)]; [get] is [session.get]. *)
Definition get_github_url
    (get : string -> outcome (response pypi_data)) (package_name : string)
  : M string :=
  let pypi_url := "https://pypi.org/pypi/" ++ package_name ++ "/json" in
  response <- call (HttpGet pypi_url) (get pypi_url) ;;
  if (status response =? 200)%Z then
    data <- lift (body response) ;;
    (* data.get('info', {}).get('project_urls', {}) *)
    urls <- match info data with
            | Missing => ret (Present [])
            | JNull => raise (no_such_attribute "get")
            | Present i =>
                match project_urls i with
                | Missing => ret (Present [])
                | other => ret other
                end
            end ;;
    match urls with
    | Present d => ret (resolve_project_urls d)
    | _ => raise (no_such_attribute "values")
    end
  else ret "".

Fixpoint first_sdist (artifacts : list url_info) : string :=
  match artifacts with
  | [] => ""
  | url_info :: rest =>
      if String.eqb (packagetype url_info) "sdist" then url url_info
      else first_sdist rest
  end.

Fixpoint releases_get (r : list (string * list url_info)) (v : string)
  : list url_info :=
  match r with
  | [] => []
  | (v', l) :: r' => if String.eqb v' v then l else releases_get r' v
  end.

(** [get_sdist_url(session, package_name)] *)
Definition get_sdist_url
    (get : string -> outcome (response pypi_data)) (package_name : string)
  : M string :=
  let pypi_url := "https://pypi.org/pypi/" ++ package_name ++ "/json" in
  response <- call (HttpGet pypi_url) (get pypi_url) ;;
  if (status response =? 200)%Z then
    data <- lift (body response) ;;
    let rels := match releases data with Missing => Present [] | r => r end in
    latest_version <-
      match info data with
      | Missing => raise (KeyError "info")
      | JNull => raise (TypeError "'NoneType' object is not subscriptable")
      | Present i =>
          match version i with
          | Missing => raise (KeyError "version")
          | v => ret v
          end
      end ;;
    match rels with
    | Present r =>
        match latest_version with
        | Present v => ret (first_sdist (releases_get r v))
        | _ => ret ""
        end
    | _ => raise (no_such_attribute "get")
    end
  else ret "".

(* ================================================================= *)
(** ** Acquiring the sources *)

(** The archive side of the world: the download and the file operations of
    [download_and_extract_sdist]. *)
Record archive_env : Type := {
  archive_get : string -> outcome (response unit);   (* session.get; the body is read() *)
  write_file : string -> outcome unit;               (* open(path, 'wb') and write *)
  makedirs : string -> outcome unit;                 (* os.makedirs(path, exist_ok=True) *)
  extract_tar : string -> string -> outcome unit;    (* tarfile.open(..).extractall(..) *)
  extract_zip : string -> string -> outcome unit     (* zipfile.ZipFile(..).extractall(..) *)
}.

Definition supported_tar (file_name : string) : bool :=
  PyStr.endswith ".tar.gz" file_name || PyStr.endswith ".tgz" file_name.

Definition supported_zip (file_name : string) : bool :=
  PyStr.endswith ".zip" file_name.

(** [download_and_extract_sdist(session, sdist_url, temp_dir)] *)
Definition download_and_extract_sdist
    (a : archive_env) (sdist_url temp_dir : string) : M string :=
  response <- call (HttpGet sdist_url) (archive_get a sdist_url) ;;
  if (status response =? 200)%Z then
    lift (body response) ;;
    let file_name := Posixpath.basename sdist_url in
    let file_path := Posixpath.join temp_dir file_name in
    call (SaveFile file_path) (write_file a file_path) ;;
    let extracted_dir := Posixpath.join temp_dir "extracted" in
    call (Makedirs extracted_dir) (makedirs a extracted_dir) ;;
    (if supported_tar file_name then
       call (ExtractTar file_path extracted_dir)
            (extract_tar a file_path extracted_dir)
     else if supported_zip file_name then
       call (ExtractZip file_path extracted_dir)
            (extract_zip a file_path extracted_dir)
     else raise (ValueError ("Unsupported file format: " ++ file_name))) ;;
    ret extracted_dir
  else raise (ValueError ("Failed to download sdist from " ++ sdist_url)).

(** [clone_repo(github_url, temp_dir)]; [git] is how starting the [git clone]
    subprocess and waiting for it ends (its exit status is never read). *)
Definition clone_repo
    (git : string -> string -> outcome unit) (github_url temp_dir : string)
  : M string :=
  let repo_dir :=
    Posixpath.join temp_dir (PyStr.last_item (PyStr.split "/" github_url)) in
  call (GitClone github_url repo_dir) (git github_url repo_dir) ;;
  ret repo_dir.

(* ================================================================= *)
(** ** Scanning a source tree *)

(** A node of a syntax tree: its class name, its own attributes (names,
    constants, operators) and its child nodes in field order. *)
#[warnings="-register-all"]
Inductive ast : Type :=
| Node (cls : string) (attrs : string) (children : list ast).

(** The scanning side of the world: what [os.walk] yields for a directory,
    how opening, reading and parsing a file ends, and [ast.unparse]. *)
Record scan_env : Type := {
  os_walk : string -> list (string * list string * list string);
  read_parse : string -> outcome ast;
  unparse : ast -> string
}.

(** [AssertFinder.visit(node)] on the list [self.asserts]: an [Assert] node
    goes to [visit_Assert], which appends and does not descend; any other
    node goes to [generic_visit], which visits the children in order. *)
Fixpoint visit (render : ast -> string) (node : ast) (asserts : list string)
  : list string :=
  match node with
  | Node cls _ children =>
      if String.eqb cls "Assert"
      then (asserts ++ [PyStr.strip (render node)])%list
      else fold_left (fun acc child => visit render child acc) children asserts
  end.

(** [generic_visit] on the children of a node. *)
Definition visit_children
    (render : ast -> string) (children : list ast) (asserts : list string)
  : list string :=
  fold_left (fun acc child => visit render child acc) children asserts.

Definition is_py (file : string) : bool := PyStr.endswith ".py" file.

(** [count_py_files(repo_dir)] *)
Definition count_py_files (env : scan_env) (repo_dir : string) : M nat :=
  walked <- call (Walk repo_dir) (Ret (os_walk env repo_dir)) ;;
  ret (list_sum
         (flat_map (fun '(root, _, files) =>
                      flat_map (fun file => if is_py file then [1] else [])
                               files)
                   walked)).

(** Lines 111-121: what is done with one source file. *)
Definition scan_path
    (env : scan_env) (task_id : TaskID) (file_path : string)
    (asserts : list string) : M (list string) :=
  asserts' <-
    try_except_SyntaxError
      (tree <- call (ReadParse file_path) (read_parse env file_path) ;;
       ret (visit (unparse env) tree asserts))
      (emit (Stdout ("Syntax error in file: " ++ file_path)) ;;
       ret asserts) ;;
  emit (Advance task_id 1) ;;
  emit Yield ;;
  ret asserts'.

(** The body of the inner loop of [find_asserts] for one file. *)
Definition scan_file
    (env : scan_env) (task_id : TaskID) (root file : string)
    (asserts : list string) : M (list string) :=
  if is_py file
  then scan_path env task_id (Posixpath.join root file) asserts
  else ret asserts.

Fixpoint scan_files
    (env : scan_env) (task_id : TaskID) (root : string) (files : list string)
    (asserts : list string) : M (list string) :=
  match files with
  | [] => ret asserts
  | file :: rest =>
      asserts' <- scan_file env task_id root file asserts ;;
      scan_files env task_id root rest asserts'
  end.

Fixpoint scan_walk
    (env : scan_env) (task_id : TaskID)
    (walked : list (string * list string * list string))
    (asserts : list string) : M (list string) :=
  match walked with
  | [] => ret asserts
  | (root, _, files) :: rest =>
      asserts' <- scan_files env task_id root files asserts ;;
      scan_walk env task_id rest asserts'
  end.

(** [find_asserts(repo_dir, progress, task_id)] *)
Definition find_asserts
    (env : scan_env) (repo_dir : string) (task_id : TaskID)
  : M (list string) :=
  walked <- call (Walk repo_dir) (Ret (os_walk env repo_dir)) ;;
  scan_walk env task_id walked [].

(* ================================================================= *)
(** ** The pipeline of one package *)

(** Everything outside the program that one run of [process_package] meets.
    Each call site has its own outcome, so the two requests for the same
    metadata URL, and the two checkouts, may end differently. *)
Record world : Type := {
  pypi_get_github : string -> outcome (response pypi_data);  (* line 24 *)
  pypi_get_sdist : string -> outcome (response pypi_data);   (* line 50 *)
  archive : archive_env;
  git_first : string -> string -> outcome unit;              (* line 148 *)
  git_again : string -> string -> outcome unit;              (* line 156 *)
  sources : scan_env;
  new_task : TaskID;                      (* the id progress.add_task returns *)
  sink_write : outcome unit;              (* results_file.write(..) *)
  sink_flush : outcome unit               (* results_file.flush() *)
}.

(** The [except] clause of lines 167-172; [package_task] is the value of the
    variable when the exception arrives. *)
Definition scan_failed
    (package_name : string) (overall_task : TaskID)
    (package_task : option TaskID) (e : exn) : M unit :=
  emit (Stdout ("Error processing " ++ package_name ++ ": " ++ exn_str e)) ;;
  emit (Advance overall_task 1) ;;
  match package_task with
  | Some (S t) => emit (RemoveTask (S t))      (* a TaskID of 0 is falsy *)
  | _ => ret tt
  end.

(** Lines 154-172.  The [try] block is cut where [package_task] is assigned,
    so that the handler sees the value the variable has when the exception
    arrives.  The directory found while acquiring is not an argument:
    line 156 assigns [repo_dir] anew. *)
Definition scanning
    (w : world) (package_name temp_dir github_url : string)
    (overall_task : TaskID) : M unit :=
  started <-
    try_except
      (repo_dir <- clone_repo (git_again w) github_url temp_dir ;;
       py_file_count <- count_py_files (sources w) repo_dir ;;
       let package_task := new_task w in
       emit (AddTask ("[cyan]Processing " ++ package_name) py_file_count
                     package_task) ;;
       ret (Some (repo_dir, package_task)))
      (fun e => scan_failed package_name overall_task None e ;; ret None) ;;
  match started with
  | None => ret tt
  | Some (repo_dir, package_task) =>
      try_except
        (asserts <- find_asserts (sources w) repo_dir package_task ;;
         emit (Advance overall_task 1) ;;
         emit (RemoveTask package_task) ;;
         call (SinkWrite package_name asserts) (sink_write w) ;;
         call SinkFlush (sink_flush w))
        (scan_failed package_name overall_task (Some package_task))
  end.

(** What an [except] clause of lines 129-152 does before it returns. *)
Definition log_and_advance (line : string) (overall_task : TaskID) : M (option string) :=
  emit (Stdout line) ;;
  emit (Advance overall_task 1) ;;
  ret None.

(** [process_package(session, package_name, temp_dir, progress, overall_task,
    semaphore, results_file)].  A step that ends in [None] stands for the
    [return] of that branch. *)
Definition process_package
    (w : world) (package_name temp_dir : string) (overall_task : TaskID)
  : M unit :=
  with_semaphore
    (resolved <-
       try_except
         (github_url <- get_github_url (pypi_get_github w) package_name ;;
          ret (Some github_url))
         (fun e =>
            log_and_advance ("Error getting GitHub URL for " ++ package_name ++ ": "
                     ++ exn_str e) overall_task) ;;
     match resolved with
     | None => ret tt
     | Some github_url =>
         acquired <-
           (if negb (PyStr.truthy github_url) then
              emit (Stdout ("No GitHub URL found for " ++ package_name
                           ++ ", trying sdist...")) ;;
              sdist_url <- get_sdist_url (pypi_get_sdist w) package_name ;;
              if negb (PyStr.truthy sdist_url) then
                log_and_advance ("No sdist URL found for " ++ package_name)
                        overall_task
              else
                try_except
                  (repo_dir <- download_and_extract_sdist
                                 (archive w) sdist_url temp_dir ;;
                   ret (Some repo_dir))
                  (fun e =>
                     log_and_advance ("Error downloading or extracting sdist for "
                              ++ package_name ++ ": " ++ exn_str e)
                             overall_task)
            else
              try_except
                (repo_dir <- clone_repo (git_first w) github_url temp_dir ;;
                 ret (Some repo_dir))
                (fun e =>
                   log_and_advance ("Error cloning repo for " ++ package_name ++ ": "
                            ++ exn_str e) overall_task)) ;;
         match acquired with
         | None => ret tt
         | Some _ => scanning w package_name temp_dir github_url overall_task
         end
     end).

(* ================================================================= *)
(** ** Observations on traces, and the statements of the specification *)

(** How far a trace advanced the counter of [task]. *)
Fixpoint advances (task : TaskID) (t : list event) : nat :=
  match t with
  | [] => 0
  | Advance task' n :: t' =>
      (if Nat.eqb task' task then n else 0) + advances task t'
  | _ :: t' => advances task t'
  end.

(** The records a trace appended to the result file. *)
Fixpoint records (t : list event) : list (string * list string) :=
  match t with
  | [] => []
  | SinkWrite package asserts :: t' => (package, asserts) :: records t'
  | _ :: t' => records t'
  end.

(** The directories a trace walked. *)
Fixpoint walked_dirs (t : list event) : list string :=
  match t with
  | [] => []
  | Walk dir :: t' => dir :: walked_dirs t'
  | _ :: t' => walked_dirs t'
  end.


(** A string without a slash. *)
Fixpoint no_slash (s : string) : Prop :=
  match s with
  | EmptyString => True
  | String c s' => c <> "/"%char /\ no_slash s'
  end.

(** The pattern [https?://github.com/<owner>/<repo>] in the words of the
    specification: [value] starts with such a URL, [group1], and what follows
    the repository name, if anything, starts a further path segment. *)
Definition github_repo_prefix (value group1 : string) : Prop :=
  exists scheme owner repo rest,
    (scheme = "http" \/ scheme = "https")
    /\ owner <> "" /\ no_slash owner
    /\ repo <> "" /\ no_slash repo
    /\ (rest = "" \/ exists rest', rest = String "/" rest')
    /\ group1 = scheme ++ "://github.com/" ++ owner ++ "/" ++ repo
    /\ value = group1 ++ rest.

(** The paths of the files that count as sources, in the order of the walk. *)
Definition py_paths (walked : list (string * list string * list string))
  : list string :=
  flat_map (fun '(root, _, files) =>
              map (Posixpath.join root) (filter is_py files))
           walked.








(** The inner loop of [find_asserts] over paths instead of directory
    entries; used to reason about [scan_walk]. *)
Fixpoint scan_paths
    (env : scan_env) (task_id : TaskID) (paths : list string)
    (asserts : list string) : M (list string) :=
  match paths with
  | [] => ret asserts
  | file_path :: rest =>
      asserts' <- scan_path env task_id file_path asserts ;;
      scan_paths env task_id rest asserts'
  end.


(** The events of the network, of the archive files and of the [git]
    subprocess. *)
Definition plumbing (ev : event) : bool :=
  match ev with
  | HttpGet _ | SaveFile _ | Makedirs _ | ExtractTar _ _ | ExtractZip _ _
  | GitClone _ _ => true
  | _ => false
  end.

(** A trace that touches neither the console, nor a progress counter, nor
    the source tree, nor the result file. *)
Definition quiet (t : list event) : Prop := forallb plumbing t = true.

(* ================================================================= *)
(** ** Statements in the words of the specification *)

(** A lookup that ignores the capitalisation of the keys: an entry is found
    under any spelling of its key that differs only in case. *)
Fixpoint dict_get_nocase (d : dict) (k : string) : option string :=
  match d with
  | [] => None
  | (k', v) :: d' =>
      if String.eqb (PyStr.lower k') (PyStr.lower k) then Some v
      else dict_get_nocase d' k
  end.

Fixpoint first_github_key_nocase (project_urls : dict) (keys : list string)
  : option string :=
  match keys with
  | [] => None
  | key :: rest =>
      let url := dict_get_nocase project_urls key in
      if is_github url then url else first_github_key_nocase project_urls rest
  end.

(** "When no value matches the pattern, the well-known keys are checked in
    priority order, case-insensitively, and the first found value that
    contains github.com is returned." *)
Definition well_known_keys_any_case (project_urls : dict) : Prop :=
  first_regexp_match (dict_values project_urls) = None ->
  forall url,
    first_github_key_nocase project_urls possible_keys = Some url ->
    resolve_project_urls project_urls = url.

(** Removing a trailing [suffix] and nothing else ([s.removesuffix]). *)
Definition removesuffix (suffix s : string) : string :=
  if PyStr.endswith suffix s
  then String.substring 0 (String.length s - String.length suffix) s
  else s.

(** "When neither the pattern nor the well-known keys yield a URL, the first
    issue-tracker value that contains github.com is returned with only a
    trailing /issues removed." *)
Definition issue_url_loses_trailing_suffix_only (project_urls : dict) : Prop :=
  first_regexp_match (dict_values project_urls) = None ->
  first_github_key project_urls possible_keys = None ->
  forall issue_url,
    first_github_key project_urls possible_issue_keys = Some issue_url ->
    resolve_project_urls project_urls = removesuffix "/issues" issue_url.



(* ================================================================= *)
(** ** Sample inputs *)

Definition sample_urls_pattern : dict :=
  [("Homepage", "https://example.org/proj");
   ("Documentation", "https://github.com/pablogsal/assert_gatherer/wiki");
   ("Source", "https://github.com/other/repo")].

Definition sample_urls_sentence_case : dict :=
  [("Source code", "https://www.github.com/org/proj")].

Definition sample_urls_lower_case : dict :=
  [("Homepage", "https://example.org/proj");
   ("source code", "https://www.github.com/org/proj")].

Definition sample_urls_issues : dict :=
  [("Issues", "http://www.github.com/org/issues-db/issues")].

Definition sample_metadata (urls : dict)
    (rels : list (string * list url_info)) : outcome (response pypi_data) :=
  Ret {| status := 200;
         body := Ret {| info := Present {| project_urls := Present urls;
                                           version := Present "1.0" |};
                        releases := Present rels |} |}.

(** A renderer for the samples: the text kept in the node. *)
Definition sample_unparse (node : ast) : string :=
  match node with Node _ attrs _ => attrs end.

Definition sample_assert (text : string) : ast :=
  Node "Assert" text [Node "Compare" "" [Node "Name" "" []]].

(** A checkout at [/tmp/ws/proj]: [a.py] holds [assert x] in a function and
    [assert y] in a branch after it; [pkg/b.py] holds [assert z];
    [notes.txt] is no source file. *)
Definition sample_sources_ordered : scan_env := {|
  os_walk := fun dir =>
    if String.eqb dir "/tmp/ws/proj"
    then [("/tmp/ws/proj", ["pkg"], ["a.py"; "notes.txt"]);
          ("/tmp/ws/proj/pkg", [], ["b.py"])]
    else [];
  read_parse := fun path =>
    if String.eqb path "/tmp/ws/proj/a.py" then
      Ret (Node "Module" ""
             [Node "FunctionDef" "f" [sample_assert "  assert x"];
              Node "If" "" [Node "Name" "c" []; sample_assert "assert y  "]])
    else if String.eqb path "/tmp/ws/proj/pkg/b.py" then
      Ret (Node "Module" "" [sample_assert "assert z"])
    else Raise (OtherException "FileNotFoundError" path);
  unparse := sample_unparse
|}.



(** An archive side on which everything succeeds. *)
Definition sample_archive : archive_env := {|
  archive_get := fun _ => Ret {| status := 200; body := Ret tt |};
  write_file := fun _ => Ret tt;
  makedirs := fun _ => Ret tt;
  extract_tar := fun _ _ => Ret tt;
  extract_zip := fun _ _ => Ret tt
|}.

Definition sample_releases (sdist : string) : list (string * list url_info) :=
  [("0.9", [{| packagetype := "sdist"; url := "https://files.example/old.zip" |}]);
   ("1.0", [{| packagetype := "bdist_wheel";
               url := "https://files.example/pkgA-1.0-py3-none-any.whl" |};
            {| packagetype := "sdist"; url := sdist |}])].

(** The workspace after an archive was unpacked into it: the archive itself,
    and one source file below [extracted]. *)
Definition sample_workspace : scan_env := {|
  os_walk := fun dir =>
    if String.eqb dir "/tmp/ws/" then
      [("/tmp/ws/", ["extracted"], ["pkgA-1.0.tar.gz"]);
       ("/tmp/ws/extracted", [], ["mod.py"])]
    else if String.eqb dir "/tmp/ws/extracted" then
      [("/tmp/ws/extracted", [], ["mod.py"])]
    else [];
  read_parse := fun path =>
    Ret (Node "Module" "" [sample_assert "assert x > 0"]);
  unparse := sample_unparse
|}.

(** PyPI knows no repository for the package but has a source archive. *)
Definition sample_world_archive (sdist : string) : world := {|
  pypi_get_github := fun _ => sample_metadata [] (sample_releases sdist);
  pypi_get_sdist := fun _ => sample_metadata [] (sample_releases sdist);
  archive := sample_archive;
  git_first := fun _ _ => Ret tt;
  git_again := fun _ _ => Ret tt;
  sources := sample_workspace;
  new_task := 1;
  sink_write := Ret tt;
  sink_flush := Ret tt
|}.

(** The first metadata request is answered, without a repository URL; the
    second one, made by [get_sdist_url], fails in transit. *)
Definition sample_world_sdist_lookup_fails : world := {|
  pypi_get_github := fun _ =>
    sample_metadata [("Homepage", "https://example.org/proj")] [];
  pypi_get_sdist := fun _ =>
    Raise (OtherException "ClientConnectionError" "Connection reset by peer");
  archive := sample_archive;
  git_first := fun _ _ => Ret tt;
  git_again := fun _ _ => Ret tt;
  sources := sample_workspace;
  new_task := 1;
  sink_write := Ret tt;
  sink_flush := Ret tt
|}.

(** The repository is found, cloned and scanned; writing the record fails. *)
Definition sample_world_sink_fails : world := {|
  pypi_get_github := fun _ =>
    sample_metadata [("Source", "https://github.com/org/proj")] [];
  pypi_get_sdist := fun _ => sample_metadata [] [];
  archive := sample_archive;
  git_first := fun _ _ => Ret tt;
  git_again := fun _ _ => Ret tt;
  sources := sample_sources_ordered;
  new_task := 1;
  sink_write := Raise (OtherException "OSError" "No space left on device");
  sink_flush := Ret tt
|}.

(* ================================================================= *)
(** ** Further observations and samples *)

(** How often a trace removed the progress task [task]. *)
Fixpoint removals (task : TaskID) (t : list event) : nat :=
  match t with
  | [] => 0
  | RemoveTask task' :: t' =>
      (if Nat.eqb task' task then 1 else 0) + removals task t'
  | _ :: t' => removals task t'
  end.

(** The paths a trace wrote an archive to. *)
Fixpoint saved_files (t : list event) : list string :=
  match t with
  | [] => []
  | SaveFile path :: t' => path :: saved_files t'
  | _ :: t' => saved_files t'
  end.

(** A string that [strip] leaves as it is. *)
Definition trimmed (s : string) : Prop := PyStr.strip s = s.

(** A package whose metadata declares [project_urls: null]. *)
Definition sample_world_null_urls : world := {|
  pypi_get_github := fun _ =>
    Ret {| status := 200;
           body := Ret {| info := Present {| project_urls := JNull;
                                             version := Present "1.0" |};
                          releases := Present (sample_releases
                                                 "https://files.example/pkgA-1.0.tar.gz") |} |};
  pypi_get_sdist := fun _ =>
    sample_metadata [] (sample_releases "https://files.example/pkgA-1.0.tar.gz");
  archive := sample_archive;
  git_first := fun _ _ => Ret tt;
  git_again := fun _ _ => Ret tt;
  sources := sample_workspace;
  new_task := 1;
  sink_write := Ret tt;
  sink_flush := Ret tt
|}.

(** A package the index does not know: both requests are answered 404. *)
Definition sample_world_not_found : world := {|
  pypi_get_github := fun _ =>
    Ret {| status := 404; body := Raise (OtherException "ContentTypeError" "") |};
  pypi_get_sdist := fun _ =>
    Ret {| status := 404; body := Raise (OtherException "ContentTypeError" "") |};
  archive := sample_archive;
  git_first := fun _ _ => Ret tt;
  git_again := fun _ _ => Ret tt;
  sources := sample_workspace;
  new_task := 1;
  sink_write := Ret tt;
  sink_flush := Ret tt
|}.

(** The archive of the package is gone: the file server answers 404. *)
Definition sample_world_archive_gone : world := {|
  pypi_get_github := fun _ =>
    sample_metadata [] (sample_releases "https://files.example/pkgA-1.0.tar.gz");
  pypi_get_sdist := fun _ =>
    sample_metadata [] (sample_releases "https://files.example/pkgA-1.0.tar.gz");
  archive := {| archive_get := fun _ => Ret {| status := 404; body := Ret tt |};
                write_file := fun _ => Ret tt;
                makedirs := fun _ => Ret tt;
                extract_tar := fun _ _ => Ret tt;
                extract_zip := fun _ _ => Ret tt |};
  git_first := fun _ _ => Ret tt;
  git_again := fun _ _ => Ret tt;
  sources := sample_workspace;
  new_task := 1;
  sink_write := Ret tt;
  sink_flush := Ret tt
|}.

(** A repository that is found, cloned to [/tmp/ws/proj] and scanned, with
    a result file that behaves as given. *)
Definition sample_world_repo
    (env : scan_env) (url : string) (write flush : outcome unit) : world := {|
  pypi_get_github := fun _ => sample_metadata [("Source", url)] [];
  pypi_get_sdist := fun _ => sample_metadata [] [];
  archive := sample_archive;
  git_first := fun _ _ => Ret tt;
  git_again := fun _ _ => Ret tt;
  sources := env;
  new_task := 1;
  sink_write := write;
  sink_flush := flush
|}.

Definition sample_urls_elsewhere : dict :=
  [("Homepage", "https://example.org/proj");
   ("Source", "https://gitlab.com/org/proj");
   ("Issues", "https://gitlab.com/org/proj/issues")].

Definition sample_urls_tracker : dict :=
  [("Homepage", "https://example.org/proj");
   ("Bug Tracker", "https://www.github.com/org/proj/issues")].

(** The events of the scan of one package: reading, reporting a syntax
    error, advancing the counter of the package, yielding. *)
Definition scan_event (task : TaskID) (ev : event) : bool :=
  match ev with
  | ReadParse _ | Stdout _ | Yield => true
  | Advance task' n => Nat.eqb task' task && Nat.eqb n 1
  | _ => false
  end.

(** The pipeline got as far as the scanning block, with [github_url] as the
    repository URL: the repository was found and the checkout of line 148
    came back, or no repository was found and the source archive was
    downloaded and unpacked. *)
Definition reaches_scanning
    (w : world) (package_name temp_dir github_url : string) : Prop :=
  result (get_github_url (pypi_get_github w) package_name) = Ret github_url
  /\ ((github_url <> ""
       /\ exists repo_dir,
            result (clone_repo (git_first w) github_url temp_dir)
            = Ret repo_dir)
      \/ (github_url = ""
          /\ exists sdist_url extracted,
               result (get_sdist_url (pypi_get_sdist w) package_name)
               = Ret sdist_url
               /\ sdist_url <> ""
               /\ result (download_and_extract_sdist
                            (archive w) sdist_url temp_dir)
                  = Ret extracted)).

(** A checkout at [/repo]: [first.py] holds [assert q], [latin1.py] after it
    cannot be decoded. *)
Definition sample_sources_late_failure : scan_env := {|
  os_walk := fun dir =>
    if String.eqb dir "/repo" then [("/repo", [], ["first.py"; "latin1.py"])]
    else [];
  read_parse := fun path =>
    if String.eqb path "/repo/first.py" then
      Ret (Node "Module" "" [sample_assert "assert q"])
    else Raise (OtherException "UnicodeDecodeError"
                               "'utf-8' codec can't decode byte 0xe9");
  unparse := sample_unparse
|}.

(* ================================================================= *)
(** ** The string operations on examples *)

Example endswith_py : PyStr.endswith ".py" "pkg/mod.py" = true.
Proof. reflexivity. Qed.

Example endswith_short : PyStr.endswith ".py" "py" = false.
Proof. reflexivity. Qed.

Example endswith_pyc : PyStr.endswith ".py" "mod.pyc" = false.
Proof. reflexivity. Qed.

Example split_url :
  PyStr.split "/" "https://github.com/org/proj"
  = ["https:"; ""; "github.com"; "org"; "proj"].
Proof. reflexivity. Qed.

Example split_empty : PyStr.split "/" "" = [""].
Proof. reflexivity. Qed.

Example lower_key : PyStr.lower "GitHub: repo" = "github: repo".
Proof. reflexivity. Qed.

Example strip_both : PyStr.strip (String "009" "  assert x  ") = "assert x".
Proof. reflexivity. Qed.

Example replace_all : PyStr.replace "/issues" "" "a/issues/b/issues" = "a/b".
Proof. reflexivity. Qed.

Example replace_left_to_right : PyStr.replace "aa" "b" "aaaaa" = "bba".
Proof. reflexivity. Qed.

Example join_plain : Posixpath.join "/tmp/ws" "extracted" = "/tmp/ws/extracted".
Proof. reflexivity. Qed.

Example join_nothing : Posixpath.join "/tmp/ws" "" = "/tmp/ws/".
Proof. reflexivity. Qed.

Example basename_archive :
  Posixpath.basename "https://files.example/p/pkgA-1.0.tar.gz"
  = "pkgA-1.0.tar.gz".
Proof. reflexivity. Qed.

Example regexp_match_tree :
  regexp_match "https://github.com/pablogsal/assert_gatherer/tree/main"
  = Some "https://github.com/pablogsal/assert_gatherer".
Proof. reflexivity. Qed.

Example regexp_match_http :
  regexp_match "http://github.com/org/proj" = Some "http://github.com/org/proj".
Proof. reflexivity. Qed.

Example regexp_match_no_repo : regexp_match "https://github.com/org" = None.
Proof. reflexivity. Qed.

Example regexp_match_other_host :
  regexp_match "https://www.github.com/org/proj" = None.
Proof. reflexivity. Qed.

(* ================================================================= *)
(** ** Strings *)

Lemma str_app_assoc (a b c : string) : (a ++ b) ++ c = a ++ b ++ c.
Proof. induction a as [|x a IH]; simpl; [reflexivity | now rewrite IH]. Qed.

Lemma str_app_nil_r (a : string) : a ++ "" = a.
Proof. induction a as [|x a IH]; simpl; [reflexivity | now rewrite IH]. Qed.

Lemma str_app_length (a b : string) :
  String.length (a ++ b) = String.length a + String.length b.
Proof. induction a as [|x a IH]; simpl; [reflexivity | now rewrite IH]. Qed.

Lemma substring_app (a b : string) :
  String.substring 0 (String.length a) (a ++ b) = a.
Proof.
  induction a as [|x a IH]; simpl.
  - destruct b; reflexivity.
  - now rewrite IH.
Qed.

(* ================================================================= *)
(** ** The pattern of [get_github_url], characterised *)

Lemma accepts_not_slash (c : ascii) :
  Re.accepts (Re.NoneOf ["/"%char]) c = true <-> c <> "/"%char.
Proof.
  simpl. rewrite orb_false_r, negb_true_iff. apply Ascii.eqb_neq.
Qed.

Lemma match_once (i : Re.item) (p : Re.pattern) (c : ascii) (s : string) :
  Re.match_here ((i, Re.Once) :: p) (String c s)
  = if Re.accepts i c then option_map S (Re.match_here p s) else None.
Proof. reflexivity. Qed.

Lemma match_many1 (i : Re.item) (p : Re.pattern) (s : string) :
  Re.match_here ((i, Re.OneOrMore) :: p) s = Re.many1 i (Re.match_here p) s.
Proof. reflexivity. Qed.

Lemma match_lits (l : string) (p : Re.pattern) (s : string) :
  Re.match_here (Re.lits l ++ p)%list (l ++ s)
  = option_map (Nat.add (String.length l)) (Re.match_here p s).
Proof.
  induction l as [|c l IH]; simpl.
  - now destruct (Re.match_here p s).
  - rewrite Ascii.eqb_refl, IH. now destruct (Re.match_here p s).
Qed.

Lemma match_lits_inv (l : string) (p : Re.pattern) (s : string) (n : nat) :
  Re.match_here (Re.lits l ++ p)%list s = Some n ->
  exists s' m,
    s = l ++ s' /\ Re.match_here p s' = Some m /\ n = String.length l + m.
Proof.
  revert s n; induction l as [|c l IH]; intros s n H; simpl in *.
  - now exists s, n.
  - destruct s as [|x s]; [discriminate|].
    destruct (Ascii.eqb_spec c x) as [->|]; [|discriminate].
    destruct (Re.match_here (Re.lits l ++ p)%list s) as [k|] eqn:E; [|discriminate].
    injection H as <-.
    destruct (IH _ _ E) as (s' & m & -> & Hm & ->).
    now exists s', m.
Qed.

(** [[^/]+] then the rest: once the rest matches after a slash-free run that
    cannot be extended, the greedy choice is the one that succeeds. *)
Lemma many1_run (k : string -> option nat) (o t : string) (n : nat) :
  o <> "" -> no_slash o ->
  (t = "" \/ exists t', t = String "/" t') ->
  k t = Some n ->
  Re.many1 (Re.NoneOf ["/"%char]) k (o ++ t) = Some (String.length o + n).
Proof.
  intros Ho Hs Ht Hk.
  induction o as [|c o IH]; [contradiction|].
  destruct Hs as [Hc Hs].
  cbn [append Re.many1].
  apply accepts_not_slash in Hc. rewrite Hc.
  destruct o as [|c' o].
  - cbn [append String.length].
    assert (Re.many1 (Re.NoneOf ["/"%char]) k t = None) as ->.
    { destruct Ht as [->|[t' ->]]; reflexivity. }
    cbn. now rewrite Hk.
  - rewrite IH by (discriminate || assumption). reflexivity.
Qed.

Lemma many1_inv (k : string -> option nat) (s : string) (n : nat) :
  Re.many1 (Re.NoneOf ["/"%char]) k s = Some n ->
  exists o t m,
    s = o ++ t /\ o <> "" /\ no_slash o /\ k t = Some m
    /\ n = String.length o + m
    /\ Re.many1 (Re.NoneOf ["/"%char]) k t = None.
Proof.
  revert n; induction s as [|c s IH]; intros n H; [discriminate|].
  cbn [Re.many1] in H.
  destruct (Re.accepts (Re.NoneOf ["/"%char]) c) eqn:Hc; [|discriminate].
  apply accepts_not_slash in Hc.
  destruct (Re.many1 (Re.NoneOf ["/"%char]) k s) as [j|] eqn:E.
  - cbn in H. injection H as <-.
    destruct (IH _ eq_refl) as (o & t & m & -> & Ho & Hs & Hk & -> & Hn).
    exists (String c o), t, m. cbn. repeat split; try assumption; discriminate.
  - cbn in H. destruct (k s) as [m|] eqn:Hk; [|discriminate].
    injection H as <-.
    exists (String c ""), s, m. cbn. repeat split; try assumption; discriminate.
Qed.

Lemma many1_end_none (s : string) :
  Re.many1 (Re.NoneOf ["/"%char]) (Re.match_here []) s = None ->
  s = "" \/ exists s', s = String "/" s'.
Proof.
  destruct s as [|c s]; [now left|]. intros H. right.
  cbn [Re.many1] in H.
  destruct (Re.accepts (Re.NoneOf ["/"%char]) c) eqn:Hc.
  - destruct (Re.many1 (Re.NoneOf ["/"%char]) (Re.match_here []) s);
      discriminate.
  - exists s. f_equal.
    destruct (Ascii.eqb_spec c "/"%char) as [->|Hne]; [reflexivity|].
    apply accepts_not_slash in Hne. congruence.
Qed.

Lemma after_scheme_complete (owner repo rest : string) :
  owner <> "" -> no_slash owner -> repo <> "" -> no_slash repo ->
  (rest = "" \/ exists rest', rest = String "/" rest') ->
  Re.match_here after_scheme ("://github.com/" ++ owner ++ "/" ++ repo ++ rest)
  = Some (String.length ("://github.com/" ++ owner ++ "/" ++ repo)).
Proof.
  intros Ho Hso Hr Hsr Hrest. unfold after_scheme.
  rewrite match_lits, match_many1.
  rewrite (many1_run _ owner ("/" ++ repo ++ rest) (S (String.length repo + 0))).
  - cbn [option_map]. f_equal.
    rewrite !str_app_length. cbn [String.length]. lia.
  - assumption.
  - assumption.
  - right. now exists (repo ++ rest).
  - cbn [append]. rewrite match_once, match_many1. cbn [Re.accepts].
    rewrite Ascii.eqb_refl.
    rewrite (many1_run _ repo rest 0); auto.
Qed.

Lemma after_scheme_sound (s : string) (n : nat) :
  Re.match_here after_scheme s = Some n ->
  exists owner repo rest,
    owner <> "" /\ no_slash owner /\ repo <> "" /\ no_slash repo
    /\ (rest = "" \/ exists rest', rest = String "/" rest')
    /\ s = ("://github.com/" ++ owner ++ "/" ++ repo) ++ rest
    /\ n = String.length ("://github.com/" ++ owner ++ "/" ++ repo).
Proof.
  unfold after_scheme. intros H.
  apply match_lits_inv in H. destruct H as (s1 & m1 & -> & H & ->).
  rewrite match_many1 in H. apply many1_inv in H.
  destruct H as (owner & t & m2 & -> & Ho & Hso & H & -> & _).
  destruct t as [|c t]; [discriminate|].
  rewrite match_once, match_many1 in H. cbn [Re.accepts] in H.
  destruct (Ascii.eqb_spec "/"%char c) as [<-|]; [|discriminate].
  destruct (Re.many1 (Re.NoneOf ["/"%char]) (Re.match_here []) t)
    as [m3|] eqn:E; cbn [option_map] in H; [|discriminate].
  injection H as <-.
  apply many1_inv in E.
  destruct E as (repo & rest & m4 & -> & Hr & Hsr & Hm & -> & Hend).
  cbn [Re.match_here] in Hm. injection Hm as <-.
  exists owner, repo, rest. repeat split; try assumption.
  - now apply many1_end_none.
  - now rewrite !str_app_assoc.
  - rewrite !str_app_length. cbn [String.length]. lia.
Qed.

Lemma after_scheme_needs_colon (c : ascii) (s : string) :
  c <> ":"%char -> Re.match_here after_scheme (String c s) = None.
Proof.
  intros Hc. unfold after_scheme. cbn [Re.lits app].
  rewrite match_once. cbn [Re.accepts].
  now destruct (Ascii.eqb_spec ":"%char c) as [<-|].
Qed.

Lemma after_scheme_starts_with_colon (t : string) (n : nat) :
  Re.match_here after_scheme t = Some n -> exists t', t = String ":" t'.
Proof.
  destruct t as [|c t]; [discriminate|]. intros H.
  destruct (Ascii.ascii_dec c ":"%char) as [->|Hc]; [now exists t|].
  rewrite (after_scheme_needs_colon _ _ Hc) in H. discriminate.
Qed.

Lemma match_optional_hit (c : ascii) (p : Re.pattern) (s : string) :
  Re.match_here ((Re.Char c, Re.Optional) :: p) (String c s)
  = Re.or_else (option_map S (Re.match_here p s))
               (Re.match_here p (String c s)).
Proof. cbn [Re.match_here Re.accepts]. now rewrite Ascii.eqb_refl. Qed.

Lemma match_optional_miss (c x : ascii) (p : Re.pattern) (s : string) :
  c <> x ->
  Re.match_here ((Re.Char c, Re.Optional) :: p) (String x s)
  = Re.match_here p (String x s).
Proof.
  intros H. cbn [Re.match_here Re.accepts].
  now destruct (Ascii.eqb_spec c x).
Qed.

(** With or without the [s], the scheme is followed by the rest. *)
Lemma regexp_http (c : ascii) (t : string) :
  c <> "s"%char ->
  Re.match_here regexp ("http" ++ String c t)
  = option_map (Nat.add 4) (Re.match_here after_scheme (String c t)).
Proof.
  intros Hc. unfold regexp. rewrite match_lits.
  now rewrite match_optional_miss by congruence.
Qed.

Lemma regexp_https (t : string) :
  Re.match_here regexp ("https" ++ t)
  = option_map (Nat.add 5) (Re.match_here after_scheme t).
Proof.
  unfold regexp. change ("https" ++ t) with ("http" ++ String "s" t).
  rewrite match_lits, match_optional_hit.
  rewrite (after_scheme_needs_colon "s" t) by discriminate.
  now destruct (Re.match_here after_scheme t).
Qed.

Lemma regexp_needs_http (s : string) (n : nat) :
  Re.match_here regexp s = Some n -> exists t, s = "http" ++ t.
Proof.
  unfold regexp. intros H. apply match_lits_inv in H.
  destruct H as (t & _ & -> & _). now exists t.
Qed.

Lemma regexp_match_complete (value group1 : string) :
  github_repo_prefix value group1 -> regexp_match value = Some group1.
Proof.
  intros (scheme & owner & repo & rest & Hs & Ho & Hso & Hr & Hsr & Hrest
          & -> & ->).
  unfold regexp_match, Re.match_prefix.
  pose proof (after_scheme_complete owner repo rest Ho Hso Hr Hsr Hrest) as H.
  set (tail := "://github.com/" ++ owner ++ "/" ++ repo) in *.
  replace ("://github.com/" ++ owner ++ "/" ++ repo ++ rest)
    with (tail ++ rest) in H by (unfold tail; now rewrite !str_app_assoc).
  replace ((scheme ++ tail) ++ rest) with (scheme ++ tail ++ rest)
    by now rewrite str_app_assoc.
  destruct (after_scheme_starts_with_colon _ _ H) as [t Ht].
  destruct Hs as [-> | ->].
  - rewrite Ht, regexp_http, <- Ht, H by discriminate.
    cbn [option_map]. f_equal.
    rewrite <- (str_app_assoc "http").
    change (4 + String.length tail) with (String.length ("http" ++ tail)).
    apply substring_app.
  - rewrite regexp_https, H. cbn [option_map]. f_equal.
    rewrite <- (str_app_assoc "https").
    change (5 + String.length tail) with (String.length ("https" ++ tail)).
    apply substring_app.
Qed.

Lemma regexp_match_sound (value group1 : string) :
  regexp_match value = Some group1 -> github_repo_prefix value group1.
Proof.
  unfold regexp_match, Re.match_prefix. intros H.
  destruct (Re.match_here regexp value) as [n|] eqn:E; [|discriminate].
  injection H as <-.
  destruct (regexp_needs_http _ _ E) as [t ->].
  assert (Hcases :
            exists scheme t' m,
              (scheme = "http" \/ scheme = "https")
              /\ "http" ++ t = scheme ++ t'
              /\ Re.match_here after_scheme t' = Some m
              /\ n = String.length scheme + m).
  { destruct t as [|c t]; [discriminate|].
    destruct (Ascii.ascii_dec c "s"%char) as [->|Hc].
    - change ("http" ++ String "s" t) with ("https" ++ t) in E |- *.
      rewrite regexp_https in E.
      destruct (Re.match_here after_scheme t) as [m|] eqn:Et; [|discriminate].
      injection E as <-. exists "https", t, m. auto.
    - rewrite regexp_http in E by assumption.
      destruct (Re.match_here after_scheme (String c t)) as [m|] eqn:Et;
        [|discriminate].
      injection E as <-. exists "http", (String c t), m. auto. }
  destruct Hcases as (scheme & t' & m & Hs & Hv & Hm & ->).
  rewrite Hv. clear E Hv.
  apply after_scheme_sound in Hm.
  destruct Hm as (owner & repo & rest & Ho & Hso & Hr & Hsr & Hrest & -> & ->).
  set (tail := "://github.com/" ++ owner ++ "/" ++ repo).
  assert (Hsub : String.substring 0 (String.length scheme + String.length tail)
                   (scheme ++ tail ++ rest) = scheme ++ tail).
  { rewrite <- str_app_length, <- str_app_assoc. apply substring_app. }
  rewrite Hsub.
  exists scheme, owner, repo, rest. repeat split; try assumption.
  now rewrite str_app_assoc.
Qed.

(** An occurrence of [/issues] cannot begin inside [x] and end inside an
    [/issues] that follows [x]: the only slash of [/issues] is its first
    character. *)
Lemma issues_no_overlap (x : string) :
  String.prefix "/issues" (x ++ "/issues") = true ->
  x = "" \/ String.prefix "/issues" x = true.
Proof.
  intros H.
  destruct x as [|c1 x]; [now left|]. right.
  cbn [String.prefix append] in H |- *. destruct (ascii_dec "/" c1); [|discriminate].
  destruct x as [|c2 x]; [discriminate|].
  cbn [String.prefix append] in H |- *. destruct (ascii_dec "i" c2); [|discriminate].
  destruct x as [|c3 x]; [discriminate|].
  cbn [String.prefix append] in H |- *. destruct (ascii_dec "s" c3); [|discriminate].
  destruct x as [|c4 x]; [discriminate|].
  cbn [String.prefix append] in H |- *. destruct (ascii_dec "s" c4); [|discriminate].
  destruct x as [|c5 x]; [discriminate|].
  cbn [String.prefix append] in H |- *. destruct (ascii_dec "u" c5); [|discriminate].
  destruct x as [|c6 x]; [discriminate|].
  cbn [String.prefix append] in H |- *. destruct (ascii_dec "e" c6); [|discriminate].
  destruct x as [|c7 x]; [discriminate|].
  cbn [String.prefix append] in H |- *. destruct (ascii_dec "s" c7); [|discriminate].
  now destruct x.
Qed.

(** When the only occurrence of [/issues] is the one at the end, removing
    every occurrence removes just that suffix. *)
Lemma replace_issues_trailing (base : string) :
  PyStr.contains "/issues" base = false ->
  PyStr.replace "/issues" "" (base ++ "/issues") = base.
Proof.
  unfold PyStr.replace. induction base as [|c base IH]; intros H.
  - reflexivity.
  - cbn [PyStr.contains] in H. apply orb_false_iff in H. destruct H as [Hp Hc].
    cbn [append PyStr.replace_from].
    destruct (String.prefix "/issues" (String c (base ++ "/issues"))) eqn:E.
    + change (String c (base ++ "/issues"))
        with (String c base ++ "/issues") in E.
      apply issues_no_overlap in E. destruct E as [E | E];
        [discriminate | congruence].
    + now rewrite IH.
Qed.

(* ================================================================= *)
(** ** The resolver *)

Lemma regexp_match_none (value : string) :
  (forall g, ~ github_repo_prefix value g) -> regexp_match value = None.
Proof.
  intros H. destruct (regexp_match value) as [g|] eqn:E; [|reflexivity].
  exfalso. exact (H g (regexp_match_sound _ _ E)).
Qed.

Lemma first_regexp_match_none (values : list string) :
  (forall v g, In v values -> ~ github_repo_prefix v g) ->
  first_regexp_match values = None.
Proof.
  induction values as [|v vs IH]; intros H; [reflexivity|].
  cbn [first_regexp_match].
  rewrite regexp_match_none by (intros g; apply H; now left).
  apply IH. intros v' g Hin. apply H. now right.
Qed.

Lemma first_regexp_match_app (before after : list string) (value g : string) :
  (forall v g', In v before -> ~ github_repo_prefix v g') ->
  github_repo_prefix value g ->
  first_regexp_match (before ++ value :: after) = Some g.
Proof.
  intros Hb Hv. induction before as [|v vs IH]; cbn [app first_regexp_match].
  - now rewrite (regexp_match_complete _ _ Hv).
  - rewrite regexp_match_none by (intros g'; apply Hb; now left).
    apply IH. intros v' g' Hin. apply Hb. now right.
Qed.

Lemma first_github_key_app (d : dict) (before after : list string)
    (key url : string) :
  (forall k, In k before -> is_github (lookup_key d k) = false) ->
  lookup_key d key = Some url ->
  is_github (Some url) = true ->
  first_github_key d (before ++ key :: after) = Some url.
Proof.
  intros Hb Hk Hg. induction before as [|k ks IH]; cbn [app first_github_key].
  - now rewrite Hk, Hg.
  - rewrite (Hb k) by now left. apply IH. intros k' Hin. apply Hb. now right.
Qed.

Lemma first_github_key_none (d : dict) (keys : list string) :
  (forall k, In k keys -> is_github (lookup_key d k) = false) ->
  first_github_key d keys = None.
Proof.
  induction keys as [|k ks IH]; intros H; [reflexivity|].
  cbn [first_github_key]. rewrite (H k) by now left.
  apply IH. intros k' Hin. apply H. now right.
Qed.

(** A value is found under the listed spelling of a key, or, when nothing
    or an empty string is stored there, under its lower-case spelling. *)
Lemma lookup_key_exact_or_lower (d : dict) (key url : string) :
  url <> "" ->
  (dict_get d key = Some url
   \/ ((dict_get d key = None \/ dict_get d key = Some "")
       /\ dict_get d (PyStr.lower key) = Some url)) ->
  lookup_key d key = Some url.
Proof.
  intros Hne [H | [[H | H] Hl]]; unfold lookup_key, py_or; rewrite H.
  - unfold PyStr.truthy. now destruct (String.eqb_spec url "").
  - exact Hl.
  - exact Hl.
Qed.

(** C4. For a response with status 200, the resolver returns the first value
    of the project-URL mapping, in iteration order, that starts with
    [https?://github.com/<owner>/<repo>], cut down to scheme, host, owner and
    repository; whatever the keys of the mapping are, no key is looked up. *)
Theorem get_github_url_first_pattern_match
    (get : string -> outcome (response pypi_data)) (package_name : string)
    (data : pypi_data) (i : pypi_info) (before after : dict)
    (key value group1 : string) :
  get ("https://pypi.org/pypi/" ++ package_name ++ "/json")
  = Ret {| status := 200; body := Ret data |} ->
  info data = Present i ->
  project_urls i = Present (before ++ (key, value) :: after)%list ->
  (forall k v g, In (k, v) before -> ~ github_repo_prefix v g) ->
  github_repo_prefix value group1 ->
  result (get_github_url get package_name) = Ret group1.
Proof.
  intros Hget Hinfo Hurls Hbefore Hvalue.
  unfold get_github_url. rewrite Hget. cbn. rewrite Hinfo, Hurls. cbn.
  unfold resolve_project_urls, dict_values.
  rewrite map_app. cbn [map snd].
  rewrite (first_regexp_match_app _ _ value group1); [reflexivity| |assumption].
  intros v g Hin. apply in_map_iff in Hin. destruct Hin as ([k v'] & <- & Hin).
  now apply (Hbefore k).
Qed.

Lemma get_github_url_first_pattern_match_witness :
  result (get_github_url (fun _ => sample_metadata sample_urls_pattern []) "pkgA")
  = Ret "https://github.com/pablogsal/assert_gatherer".
Proof.
  eapply get_github_url_first_pattern_match
    with (before := [("Homepage", "https://example.org/proj")])
         (after := [("Source", "https://github.com/other/repo")])
         (key := "Documentation")
         (value := "https://github.com/pablogsal/assert_gatherer/wiki").
  - reflexivity.
  - reflexivity.
  - reflexivity.
  - intros k v g [H | []] Hg. injection H as <- <-.
    apply regexp_match_complete in Hg. vm_compute in Hg. discriminate.
  - apply regexp_match_sound. vm_compute. reflexivity.
Defined.

(** C5, as the claim words it, fails: a key spelled [Source code] differs
    from the listed [Source Code] only in case and its value mentions
    github.com, yet the resolver returns the empty string. *)
Lemma well_known_keys_any_case_fails :
  ~ well_known_keys_any_case sample_urls_sentence_case.
Proof.
  intros H.
  specialize (H eq_refl "https://www.github.com/org/proj" eq_refl).
  vm_compute in H. discriminate.
Qed.

(** C5, amended.  When no value matches the pattern, the keys Source, Code,
    Repository, "GitHub: repo", "Source Code", Homepage, GitHub are tried in
    that order; each is looked up as listed and, when nothing or an empty
    string is stored there, in lower case; the value of the first key whose
    value mentions github.com is returned. *)
Theorem resolve_project_urls_well_known_key
    (d : dict) (before after : list string) (key url : string) :
  (forall k v g, In (k, v) d -> ~ github_repo_prefix v g) ->
  possible_keys = (before ++ key :: after)%list ->
  (forall k, In k before -> is_github (lookup_key d k) = false) ->
  (dict_get d key = Some url
   \/ ((dict_get d key = None \/ dict_get d key = Some "")
       /\ dict_get d (PyStr.lower key) = Some url)) ->
  url <> "" ->
  PyStr.contains "github.com" url = true ->
  resolve_project_urls d = url.
Proof.
  intros Hpat Hkeys Hbefore Hfound Hne Hgh.
  unfold resolve_project_urls.
  rewrite first_regexp_match_none.
  - rewrite Hkeys.
    rewrite (first_github_key_app d before after key url); auto.
    + now apply lookup_key_exact_or_lower.
    + cbn. rewrite Hgh. unfold PyStr.truthy.
      now destruct (String.eqb_spec url "").
  - intros v g Hin. apply in_map_iff in Hin.
    destruct Hin as ([k v'] & <- & Hin). now apply (Hpat k).
Qed.

Lemma resolve_project_urls_well_known_key_witness :
  resolve_project_urls sample_urls_lower_case
  = "https://www.github.com/org/proj".
Proof.
  apply (resolve_project_urls_well_known_key
           sample_urls_lower_case
           ["Source"; "Code"; "Repository"; "GitHub: repo"]
           ["Homepage"; "GitHub"] "Source Code").
  - intros k v g [H | [H | []]] Hg; injection H as <- <-;
      apply regexp_match_complete in Hg; vm_compute in Hg; discriminate.
  - reflexivity.
  - intros k [<- | [<- | [<- | [<- | []]]]]; reflexivity.
  - right. split; [left|]; reflexivity.
  - discriminate.
  - reflexivity.
Defined.

(** C6, as the claim words it, fails: the issue-tracker URL
    [http://www.github.com/org/issues-db/issues] comes back as
    [http://www.github.com/org-db], not with its trailing [/issues] alone
    removed. *)
Lemma issue_url_loses_trailing_suffix_only_fails :
  ~ issue_url_loses_trailing_suffix_only sample_urls_issues.
Proof.
  intros H.
  specialize (H eq_refl eq_refl _ eq_refl).
  vm_compute in H. discriminate.
Qed.

(** C6, amended.  When neither the pattern nor the well-known keys yield a
    URL, the keys Issues, Bug Tracker, Bug Reports are tried in that order,
    and the value of the first one that mentions github.com is returned with
    every occurrence of [/issues] removed. *)
Theorem resolve_project_urls_issue_key
    (d : dict) (before after : list string) (key issue_url : string) :
  (forall k v g, In (k, v) d -> ~ github_repo_prefix v g) ->
  (forall k, In k possible_keys -> is_github (lookup_key d k) = false) ->
  possible_issue_keys = (before ++ key :: after)%list ->
  (forall k, In k before -> is_github (lookup_key d k) = false) ->
  lookup_key d key = Some issue_url ->
  issue_url <> "" ->
  PyStr.contains "github.com" issue_url = true ->
  resolve_project_urls d = PyStr.replace "/issues" "" issue_url.
Proof.
  intros Hpat Hwell Hkeys Hbefore Hfound Hne Hgh.
  unfold resolve_project_urls.
  rewrite first_regexp_match_none.
  - rewrite (first_github_key_none d possible_keys Hwell), Hkeys.
    rewrite (first_github_key_app d before after key issue_url); auto.
    cbn. rewrite Hgh. unfold PyStr.truthy.
    now destruct (String.eqb_spec issue_url "").
  - intros v g Hin. apply in_map_iff in Hin.
    destruct Hin as ([k v'] & <- & Hin). now apply (Hpat k).
Qed.

Lemma resolve_project_urls_issue_key_witness :
  resolve_project_urls sample_urls_issues = "http://www.github.com/org-db".
Proof.
  apply (resolve_project_urls_issue_key
           sample_urls_issues [] ["Bug Tracker"; "Bug Reports"] "Issues"
           "http://www.github.com/org/issues-db/issues").
  - intros k v g [H | []] Hg; injection H as <- <-.
    apply regexp_match_complete in Hg. vm_compute in Hg. discriminate.
  - intros k Hin. cbn in Hin.
    repeat (destruct Hin as [<- | Hin]; [reflexivity|]). destruct Hin.
  - reflexivity.
  - intros k [].
  - reflexivity.
  - discriminate.
  - reflexivity.
Defined.

(* ================================================================= *)
(** ** The monad *)

Lemma bind_ret_l {A B} (a : A) (k : A -> M B) : bind (ret a) k = k a.
Proof. unfold bind, ret. now destruct (k a). Qed.

Lemma bind_ret_r {A} (m : M A) : bind m ret = m.
Proof.
  destruct m as [t [a|e]]; cbn; [|reflexivity]. now rewrite app_nil_r.
Qed.

Lemma bind_assoc {A B C} (m : M A) (k : A -> M B) (h : B -> M C) :
  bind (bind m k) h = bind m (fun a => bind (k a) h).
Proof.
  destruct m as [t [a|e]]; cbn; [|reflexivity].
  destruct (k a) as [t1 [b|e]]; cbn; [|reflexivity].
  destruct (h b) as [t2 r]. now rewrite app_assoc.
Qed.

Lemma advances_app (task : TaskID) (t1 t2 : list event) :
  advances task (t1 ++ t2) = advances task t1 + advances task t2.
Proof.
  induction t1 as [|ev t1 IH]; [reflexivity|].
  destruct ev; cbn; rewrite IH; lia.
Qed.

Lemma records_app (t1 t2 : list event) :
  records (t1 ++ t2) = (records t1 ++ records t2)%list.
Proof.
  induction t1 as [|ev t1 IH]; [reflexivity|].
  destruct ev; cbn; now rewrite IH.
Qed.

(* ================================================================= *)
(** ** The visitor *)

Lemma ast_induction (P : ast -> Prop) :
  (forall cls attrs children,
      Forall P children -> P (Node cls attrs children)) ->
  forall node, P node.
Proof.
  intros step. fix IH 1. intros [cls attrs children]. apply step.
  induction children as [|c cs IHcs]; constructor; [apply IH | exact IHcs].
Qed.

Section Visitor.

Variable render : ast -> string.

Lemma visit_children_flat (children : list ast) (asserts : list string) :
  Forall (fun c => forall acc, visit render c acc
                               = (acc ++ visit render c [])%list) children ->
  visit_children render children asserts
  = (asserts ++ flat_map (fun c => visit render c []) children)%list.
Proof.
  intros H. revert asserts.
  induction H as [|c cs Hc _ IH]; intros asserts; cbn.
  - now rewrite app_nil_r.
  - unfold visit_children in IH. rewrite IH, Hc. now rewrite app_assoc.
Qed.

(** The visitor only ever appends to [self.asserts]. *)
Lemma visit_appends (node : ast) (asserts : list string) :
  visit render node asserts = (asserts ++ visit render node [])%list.
Proof.
  revert asserts. induction node as [cls attrs children IH] using ast_induction.
  intros asserts. cbn [visit].
  destruct (String.eqb cls "Assert"); [reflexivity|].
  fold (visit_children render children asserts). fold (visit_children render children []).
  now rewrite !(visit_children_flat _ _ IH).
Qed.

Lemma visit_other (cls attrs : string) (children : list ast) :
  String.eqb cls "Assert" = false ->
  visit render (Node cls attrs children) []
  = flat_map (fun c => visit render c []) children.
Proof.
  intros H. cbn [visit]. rewrite H.
  fold (visit_children render children []).
  rewrite visit_children_flat; [reflexivity|].
  apply Forall_forall. intros c _ acc. apply visit_appends.
Qed.




End Visitor.

(* ================================================================= *)
(** ** The scan *)

Lemma bind_ext {A B} (m : M A) (k1 k2 : A -> M B) :
  (forall a, k1 a = k2 a) -> bind m k1 = bind m k2.
Proof. intros H. destruct m as [t [a|e]]; cbn; [now rewrite H | reflexivity]. Qed.

Section Scan.

Variable env : scan_env.
Variable task_id : TaskID.

Lemma scan_paths_app (p1 p2 : list string) (asserts : list string) :
  scan_paths env task_id (p1 ++ p2) asserts
  = bind (scan_paths env task_id p1 asserts)
         (fun asserts' => scan_paths env task_id p2 asserts').
Proof.
  revert asserts. induction p1 as [|p ps IH]; intros asserts.
  - cbn [app scan_paths]. now rewrite bind_ret_l.
  - cbn [app scan_paths]. rewrite bind_assoc.
    apply bind_ext. intros a. apply IH.
Qed.

(** The loop over the files of one directory is the loop over the paths
    of its source files. *)
Lemma scan_files_paths (root : string) (files asserts : list string) :
  scan_files env task_id root files asserts
  = scan_paths env task_id
      (map (Posixpath.join root) (filter is_py files)) asserts.
Proof.
  revert asserts. induction files as [|file rest IH]; intros asserts.
  - reflexivity.
  - cbn [scan_files filter]. unfold scan_file.
    destruct (is_py file).
    + cbn [map scan_paths]. apply bind_ext. intros a. apply IH.
    + rewrite bind_ret_l. apply IH.
Qed.

Lemma scan_walk_paths
    (walked : list (string * list string * list string))
    (asserts : list string) :
  scan_walk env task_id walked asserts
  = scan_paths env task_id (py_paths walked) asserts.
Proof.
  revert asserts.
  induction walked as [|[[root dirs] files] rest IH]; intros asserts.
  - reflexivity.
  - cbn [scan_walk py_paths flat_map].
    rewrite scan_paths_app, scan_files_paths.
    apply bind_ext. intros a. apply IH.
Qed.

Lemma find_asserts_paths (repo_dir : string) :
  find_asserts env repo_dir task_id
  = bind (emit (Walk repo_dir))
         (fun _ => scan_paths env task_id
                     (py_paths (os_walk env repo_dir)) []).
Proof.
  unfold find_asserts. cbn [call].
  change ([Walk repo_dir], Ret (os_walk env repo_dir))
    with (bind (emit (Walk repo_dir))
               (fun _ => ret (os_walk env repo_dir))).
  rewrite bind_assoc. apply bind_ext. intros _.
  rewrite bind_ret_l. apply scan_walk_paths.
Qed.

(** What one file contributes, by the way reading and parsing it ends. *)
Lemma scan_paths_parsed
    (path : string) (rest asserts : list string) (tree : ast) :
  read_parse env path = Ret tree ->
  scan_paths env task_id (path :: rest) asserts
  = bind (ReadParse path :: Advance task_id 1 :: Yield :: nil,
          Ret (visit (unparse env) tree asserts))
         (scan_paths env task_id rest).
Proof. intros H. cbn [scan_paths]. unfold scan_path. now rewrite H. Qed.

Lemma scan_paths_syntax_error
    (path : string) (rest asserts : list string) (e : exn) :
  read_parse env path = Raise e -> is_SyntaxError e = true ->
  scan_paths env task_id (path :: rest) asserts
  = bind (Stdout ("Syntax error in file: " ++ path)
            :: Advance task_id 1 :: Yield :: nil,
          Ret asserts)
         (scan_paths env task_id rest).
Proof.
  intros H He. cbn [scan_paths]. unfold scan_path. rewrite H. cbn.
  now rewrite He.
Qed.

Lemma scan_paths_fatal
    (path : string) (rest asserts : list string) (e : exn) :
  read_parse env path = Raise e -> is_SyntaxError e = false ->
  scan_paths env task_id (path :: rest) asserts = ([], Raise e).
Proof.
  intros H He. cbn [scan_paths]. unfold scan_path. rewrite H. cbn.
  now rewrite He.
Qed.


Lemma scan_paths_advances_le (paths asserts : list string) :
  advances task_id (trace (scan_paths env task_id paths asserts))
  <= length paths.
Proof.
  revert asserts. induction paths as [|path rest IH]; intros asserts.
  - cbn. lia.
  - destruct (read_parse env path) as [tree|e] eqn:E.
    + rewrite (scan_paths_parsed _ _ _ _ E). cbn [bind].
      specialize (IH (visit (unparse env) tree asserts)).
      destruct (scan_paths env task_id rest _) as [t r].
      cbn in *. rewrite Nat.eqb_refl. lia.
    + destruct (is_SyntaxError e) eqn:He.
      * rewrite (scan_paths_syntax_error _ _ _ _ E He). cbn [bind].
        specialize (IH asserts).
        destruct (scan_paths env task_id rest _) as [t r].
        cbn in *. rewrite Nat.eqb_refl. lia.
      * rewrite (scan_paths_fatal _ _ _ _ E He). cbn. lia.
Qed.

Lemma count_one_directory (root : string) (files : list string) :
  list_sum (flat_map (fun file => if is_py file then [1] else []) files)
  = length (map (Posixpath.join root) (filter is_py files)).
Proof.
  induction files as [|file fs IH]; [reflexivity|].
  cbn [flat_map filter]. destruct (is_py file); cbn; now rewrite <- IH.
Qed.

Lemma count_py_files_length (repo_dir : string) :
  count_py_files env repo_dir
  = ([Walk repo_dir], Ret (length (py_paths (os_walk env repo_dir)))).
Proof.
  unfold count_py_files. cbn. do 2 f_equal.
  induction (os_walk env repo_dir) as [|[[root dirs] files] rest IH];
    [reflexivity|].
  cbn [flat_map py_paths].
  rewrite list_sum_app, length_app, IH, (count_one_directory root).
  reflexivity.
Qed.

End Scan.












(** X21.  Whatever happens while reading, the scan never advances the
    counter more often than the sizing pass counted. *)
Lemma scan_advances_at_most_count
    (env : scan_env) (repo_dir : string) (task_id : TaskID) :
  exists n,
    result (count_py_files env repo_dir) = Ret n
    /\ advances task_id (trace (find_asserts env repo_dir task_id)) <= n.
Proof.
  eexists. split; [now rewrite count_py_files_length|].
  rewrite find_asserts_paths. cbn [emit bind].
  pose proof (scan_paths_advances_le env task_id
                (py_paths (os_walk env repo_dir)) []) as H.
  destruct (scan_paths env task_id _ []) as [t r]. exact H.
Qed.

(* ================================================================= *)
(** ** Traces of the pipeline *)

Lemma trace_bind {A B} (m : M A) (k : A -> M B) :
  trace (bind m k)
  = (trace m ++ match result m with
                | Ret a => trace (k a)
                | Raise _ => []
                end)%list.
Proof.
  destruct m as [t [a|e]]; cbn; [now destruct (k a) | now rewrite app_nil_r].
Qed.

Lemma result_bind {A B} (m : M A) (k : A -> M B) :
  result (bind m k)
  = match result m with
    | Ret a => result (k a)
    | Raise e => Raise e
    end.
Proof. destruct m as [t [a|e]]; cbn; [now destruct (k a) | reflexivity]. Qed.

Lemma trace_try_except {A} (m : M A) (h : exn -> M A) :
  trace (try_except m h)
  = (trace m ++ match result m with
                | Ret _ => []
                | Raise e => trace (h e)
                end)%list.
Proof.
  destruct m as [t [a|e]]; cbn; [now rewrite app_nil_r | now destruct (h e)].
Qed.

Lemma result_try_except {A} (m : M A) (h : exn -> M A) :
  result (try_except m h)
  = match result m with
    | Ret a => Ret a
    | Raise e => result (h e)
    end.
Proof. destruct m as [t [a|e]]; cbn; [reflexivity | now destruct (h e)]. Qed.

Lemma trace_with_semaphore {A} (m : M A) :
  trace (with_semaphore m) = (Acquire :: trace m ++ [Release])%list.
Proof. now destruct m. Qed.

Lemma result_with_semaphore {A} (m : M A) :
  result (with_semaphore m) = result m.
Proof. now destruct m. Qed.

Lemma trace_call {A} (ev : event) (o : outcome A) :
  trace (call ev o) = match o with Ret _ => [ev] | Raise _ => [] end.
Proof. now destruct o. Qed.

Lemma result_call {A} (ev : event) (o : outcome A) : result (call ev o) = o.
Proof. now destruct o. Qed.

Lemma quiet_nil : quiet [].
Proof. reflexivity. Qed.

Lemma quiet_app (t1 t2 : list event) : quiet t1 -> quiet t2 -> quiet (t1 ++ t2).
Proof. unfold quiet. intros H1 H2. now rewrite forallb_app, H1, H2. Qed.

Lemma quiet_advances (task : TaskID) (t : list event) :
  quiet t -> advances task t = 0.
Proof.
  unfold quiet. induction t as [|ev t IH]; [reflexivity|].
  cbn [forallb]. intros H. apply andb_true_iff in H. destruct H as [Hev Ht].
  destruct ev; try discriminate; cbn; auto.
Qed.

Lemma quiet_records (t : list event) : quiet t -> records t = [].
Proof.
  unfold quiet. induction t as [|ev t IH]; [reflexivity|].
  cbn [forallb]. intros H. apply andb_true_iff in H. destruct H as [Hev Ht].
  destruct ev; try discriminate; cbn; auto.
Qed.

Lemma quiet_walked_dirs (t : list event) : quiet t -> walked_dirs t = [].
Proof.
  unfold quiet. induction t as [|ev t IH]; [reflexivity|].
  cbn [forallb]. intros H. apply andb_true_iff in H. destruct H as [Hev Ht].
  destruct ev; try discriminate; cbn; auto.
Qed.

Lemma walked_dirs_app (t1 t2 : list event) :
  walked_dirs (t1 ++ t2) = (walked_dirs t1 ++ walked_dirs t2)%list.
Proof.
  induction t1 as [|ev t1 IH]; [reflexivity|].
  destruct ev; cbn; now rewrite IH.
Qed.

Lemma quiet_call {A} (ev : event) (o : outcome A) :
  quiet [ev] -> quiet (trace (call ev o)).
Proof. intros H. rewrite trace_call. destruct o; [exact H | exact quiet_nil]. Qed.

Lemma quiet_bind {A B} (m : M A) (k : A -> M B) :
  quiet (trace m) -> (forall a, quiet (trace (k a))) ->
  quiet (trace (bind m k)).
Proof.
  intros Hm Hk. rewrite trace_bind. apply quiet_app; [exact Hm|].
  destruct (result m); [apply Hk | exact quiet_nil].
Qed.

Create HintDb quiet_db.
#[local] Hint Resolve quiet_nil quiet_app quiet_call quiet_bind : quiet_db.

Lemma quiet_http (url : string) : quiet [HttpGet url].
Proof. reflexivity. Qed.

Lemma quiet_lift {A} (o : outcome A) : quiet (trace (lift o)).
Proof. exact quiet_nil. Qed.

Lemma quiet_ret {A} (a : A) : quiet (trace (ret a)).
Proof. exact quiet_nil. Qed.

Lemma quiet_raise {A} (e : exn) : quiet (trace (@raise A e)).
Proof. exact quiet_nil. Qed.

#[local] Hint Resolve quiet_http quiet_lift quiet_ret quiet_raise : quiet_db.

Lemma get_github_url_quiet
    (get : string -> outcome (response pypi_data)) (package_name : string) :
  quiet (trace (get_github_url get package_name)).
Proof.
  unfold get_github_url. apply quiet_bind; [auto with quiet_db|].
  intros r. destruct (status r =? 200)%Z; [|auto with quiet_db].
  apply quiet_bind; [auto with quiet_db|]. intros data.
  apply quiet_bind.
  - destruct (info data) as [| |i]; auto with quiet_db.
    destruct (project_urls i); auto with quiet_db.
  - intros [| |d]; auto with quiet_db.
Qed.

Lemma get_sdist_url_quiet
    (get : string -> outcome (response pypi_data)) (package_name : string) :
  quiet (trace (get_sdist_url get package_name)).
Proof.
  unfold get_sdist_url. apply quiet_bind; [auto with quiet_db|].
  intros r. destruct (status r =? 200)%Z; [|auto with quiet_db].
  apply quiet_bind; [auto with quiet_db|]. intros data.
  apply quiet_bind.
  - destruct (info data) as [| |i]; auto with quiet_db.
    destruct (version i); auto with quiet_db.
  - intros v.
    repeat match goal with
           | |- context [match ?x with _ => _ end] => destruct x
           end; auto with quiet_db.
Qed.

Lemma download_and_extract_sdist_quiet
    (a : archive_env) (sdist_url temp_dir : string) :
  quiet (trace (download_and_extract_sdist a sdist_url temp_dir)).
Proof.
  unfold download_and_extract_sdist. apply quiet_bind; [auto with quiet_db|].
  intros r. destruct (status r =? 200)%Z; [|auto with quiet_db].
  repeat (apply quiet_bind; [|intros ?]); auto with quiet_db;
    try (apply quiet_call; reflexivity).
  destruct (supported_tar _); [apply quiet_call; reflexivity|].
  destruct (supported_zip _); [apply quiet_call; reflexivity|].
  auto with quiet_db.
Qed.

Lemma clone_repo_quiet
    (git : string -> string -> outcome unit) (github_url temp_dir : string) :
  quiet (trace (clone_repo git github_url temp_dir)).
Proof.
  unfold clone_repo. apply quiet_bind; [|auto with quiet_db].
  apply quiet_call. reflexivity.
Qed.

(** The scan advances the counter of its own task only, and writes no
    record. *)
Lemma scan_paths_other_task
    (env : scan_env) (task_id other : TaskID) (paths asserts : list string) :
  task_id <> other ->
  advances other (trace (scan_paths env task_id paths asserts)) = 0
  /\ records (trace (scan_paths env task_id paths asserts)) = []
  /\ walked_dirs (trace (scan_paths env task_id paths asserts)) = [].
Proof.
  intros Hne. apply Nat.eqb_neq in Hne.
  revert asserts. induction paths as [|path rest IH]; intros asserts.
  - now repeat split.
  - destruct (read_parse env path) as [tree|e] eqn:E.
    + rewrite (scan_paths_parsed _ _ _ _ _ _ E). cbn [bind].
      destruct (IH (visit (unparse env) tree asserts)) as (IHa & IHr & IHw).
      destruct (scan_paths env task_id rest _) as [t r].
      cbn in *. now rewrite Hne, IHa, IHr, IHw.
    + destruct (is_SyntaxError e) eqn:He.
      * rewrite (scan_paths_syntax_error _ _ _ _ _ _ E He). cbn [bind].
        destruct (IH asserts) as (IHa & IHr & IHw).
        destruct (scan_paths env task_id rest _) as [t r].
        cbn in *. now rewrite Hne, IHa, IHr, IHw.
      * rewrite (scan_paths_fatal _ _ _ _ _ _ E He). now repeat split.
Qed.

Lemma find_asserts_other_task
    (env : scan_env) (repo_dir : string) (task_id other : TaskID) :
  task_id <> other ->
  advances other (trace (find_asserts env repo_dir task_id)) = 0
  /\ records (trace (find_asserts env repo_dir task_id)) = []
  /\ walked_dirs (trace (find_asserts env repo_dir task_id)) = [repo_dir].
Proof.
  intros Hne. rewrite find_asserts_paths. cbn [emit bind].
  destruct (scan_paths_other_task env task_id other
              (py_paths (os_walk env repo_dir)) [] Hne) as (Ha & Hr & Hw).
  destruct (scan_paths env task_id _ []) as [t r].
  cbn in *. now rewrite Hw.
Qed.

(* ================================================================= *)
(** ** The pipeline of one package *)

#[local] Arguments find_asserts : simpl never.
#[local] Arguments count_py_files : simpl never.
#[local] Arguments clone_repo : simpl never.
#[local] Arguments get_github_url : simpl never.
#[local] Arguments get_sdist_url : simpl never.
#[local] Arguments download_and_extract_sdist : simpl never.
#[local] Arguments scanning : simpl never.

Lemma log_and_advance_eq (line : string) (overall_task : TaskID) :
  log_and_advance line overall_task
  = ([Stdout line; Advance overall_task 1], Ret None).
Proof. reflexivity. Qed.

(** One step through a pipeline: results and traces of the outermost
    combinators. *)
Ltac mstep :=
  repeat first
    [ rewrite result_with_semaphore | rewrite trace_with_semaphore
    | rewrite result_bind | rewrite trace_bind
    | rewrite result_try_except | rewrite trace_try_except
    | rewrite advances_app | rewrite records_app | rewrite walked_dirs_app
    | rewrite log_and_advance_eq
    | progress cbn [result trace fst snd ret raise emit lift
                    advances records walked_dirs app Nat.add] ].

Section Pipeline.

Variable w : world.
Variables package_name temp_dir : string.
Variable overall_task : TaskID.

(** The scanning block always comes back: both its parts are guarded. *)
Lemma scanning_returns (github_url : string) :
  result (scanning w package_name temp_dir github_url overall_task) = Ret tt.
Proof.
  unfold scanning.
  destruct (clone_repo (git_again w) github_url temp_dir) as [tc [d|e]];
    [|reflexivity].
  cbn [bind]. rewrite count_py_files_length. cbn.
  destruct (find_asserts (sources w) d (new_task w)) as [tf [a|e]]; cbn.
  - destruct (sink_write w) as [[]|e]; cbn.
    + destruct (sink_flush w) as [[]|e]; cbn; [reflexivity|].
      destruct (new_task w); reflexivity.
    + destruct (new_task w); reflexivity.
  - destruct (new_task w); reflexivity.
Qed.

(** When the result file takes the record, the scanning block advances the
    overall counter once, whether the scan works out or not. *)
Lemma scanning_advances_once (github_url : string) :
  new_task w <> overall_task ->
  sink_write w = Ret tt -> sink_flush w = Ret tt ->
  advances overall_task
    (trace (scanning w package_name temp_dir github_url overall_task)) = 1.
Proof.
  intros Hne Hw Hf. unfold scanning.
  pose proof (fun task => quiet_advances task _
                (clone_repo_quiet (git_again w) github_url temp_dir)) as Hc.
  destruct (clone_repo (git_again w) github_url temp_dir) as [tc [d|e]].
  - cbn [bind]. rewrite count_py_files_length. cbn.
    destruct (find_asserts_other_task (sources w) d (new_task w)
                overall_task Hne) as (Hfa & _ & _).
    destruct (find_asserts (sources w) d (new_task w)) as [tf [a|e]].
    + cbn in *. rewrite Hw, Hf. cbn.
      rewrite !advances_app, Hc, Hfa. cbn.
      rewrite Nat.eqb_refl. lia.
    + cbn in *.
      destruct (new_task w); cbn;
        rewrite !advances_app, Hc, Hfa; cbn; rewrite Nat.eqb_refl; lia.
  - cbn in *. rewrite !advances_app, Hc. cbn. rewrite Nat.eqb_refl. lia.
Qed.


(** When [get_github_url] finds nothing and [get_sdist_url] raises, the
    exception leaves [process_package], and the overall counter stays
    where it was. *)
Lemma get_sdist_url_failure_escapes (e : exn) :
  result (get_github_url (pypi_get_github w) package_name) = Ret "" ->
  result (get_sdist_url (pypi_get_sdist w) package_name) = Raise e ->
  result (process_package w package_name temp_dir overall_task) = Raise e
  /\ advances overall_task
       (trace (process_package w package_name temp_dir overall_task)) = 0
  /\ records (trace (process_package w package_name temp_dir overall_task))
     = [].
Proof.
  intros Hg Hs.
  pose proof (get_github_url_quiet (pypi_get_github w) package_name) as Qg.
  pose proof (get_sdist_url_quiet (pypi_get_sdist w) package_name) as Qs.
  pose proof (quiet_advances overall_task _ Qg) as Hga.
  pose proof (quiet_advances overall_task _ Qs) as Hsa.
  pose proof (quiet_records _ Qg) as Hgr.
  pose proof (quiet_records _ Qs) as Hsr.
  unfold process_package. mstep. rewrite Hg. mstep.
  cbn [PyStr.truthy String.eqb negb]. mstep. rewrite Hs. mstep.
  rewrite Hga, Hgr, Hsa, Hsr. auto.
Qed.

(** X19.  Every path on which [get_sdist_url] does not raise and the
    result file takes the record advances the overall counter exactly
    once. *)
Lemma process_package_advances_once :
  new_task w <> overall_task ->
  sink_write w = Ret tt -> sink_flush w = Ret tt ->
  (forall e, result (get_sdist_url (pypi_get_sdist w) package_name)
             <> Raise e) ->
  advances overall_task
    (trace (process_package w package_name temp_dir overall_task)) = 1.
Proof.
  intros Hne Hw Hf Hsd.
  pose proof (quiet_advances overall_task _
                (get_github_url_quiet (pypi_get_github w) package_name))
    as Hga.
  pose proof (quiet_advances overall_task _
                (get_sdist_url_quiet (pypi_get_sdist w) package_name))
    as Hsa.
  unfold process_package. mstep. rewrite Hga.
  destruct (result (get_github_url (pypi_get_github w) package_name))
    as [github_url|eg]; mstep; [|now rewrite Nat.eqb_refl].
  pose proof (scanning_advances_once github_url Hne Hw Hf) as Hscan.
  unfold PyStr.truthy.
  destruct (String.eqb_spec github_url "") as [->|Hnz]; cbn [negb]; mstep.
  - rewrite Hsa.
    destruct (result (get_sdist_url (pypi_get_sdist w) package_name))
      as [sdist_url|es] eqn:Es; mstep; [|now contradiction (Hsd es)].
    destruct (negb (negb (sdist_url =? ""))); mstep;
      [now rewrite Nat.eqb_refl|].
    pose proof (quiet_advances overall_task _
                  (download_and_extract_sdist_quiet
                     (archive w) sdist_url temp_dir)) as Hda.
    rewrite Hda.
    destruct (result (download_and_extract_sdist
                        (archive w) sdist_url temp_dir)); mstep.
    + now rewrite Hscan.
    + now rewrite Nat.eqb_refl.
  - pose proof (quiet_advances overall_task _
                  (clone_repo_quiet (git_first w) github_url temp_dir))
      as Hca.
    rewrite Hca.
    destruct (result (clone_repo (git_first w) github_url temp_dir)); mstep.
    + now rewrite Hscan.
    + now rewrite Nat.eqb_refl.
Qed.

End Pipeline.

Lemma str_app_inv_head (a b c : string) : a ++ b = a ++ c -> b = c.
Proof.
  induction a as [|x a IH]; cbn; intros H; [exact H|].
  injection H as H. now apply IH.
Qed.

Lemma join_empty (dir : string) :
  Posixpath.join dir "" = dir \/ Posixpath.join dir "" = dir ++ "/".
Proof.
  unfold Posixpath.join. cbn [PyStr.startswith String.prefix].
  destruct (String.eqb dir "" || PyStr.endswith "/" dir).
  - left. apply str_app_nil_r.
  - right. reflexivity.
Qed.

Lemma join_extracted_is_below (dir : string) :
  Posixpath.join dir "" <> Posixpath.join dir "extracted".
Proof.
  unfold Posixpath.join. cbn [PyStr.startswith String.prefix].
  destruct (String.eqb dir "" || PyStr.endswith "/" dir);
    intros H; apply str_app_inv_head in H; discriminate.
Qed.

Lemma clone_repo_result
    (git : string -> string -> outcome unit) (github_url temp_dir : string) :
  let repo_dir :=
    Posixpath.join temp_dir (PyStr.last_item (PyStr.split "/" github_url)) in
  result (clone_repo git github_url temp_dir)
  = match git github_url repo_dir with
    | Ret _ => Ret repo_dir
    | Raise e => Raise e
    end.
Proof.
  cbn zeta. unfold clone_repo. rewrite result_bind, result_call.
  now destruct (git github_url _).
Qed.

(** The extraction, when it comes back, comes back with [extracted] below
    the workspace. *)
Lemma download_and_extract_sdist_dir
    (a : archive_env) (sdist_url temp_dir dir : string) :
  result (download_and_extract_sdist a sdist_url temp_dir) = Ret dir ->
  dir = Posixpath.join temp_dir "extracted".
Proof.
  unfold download_and_extract_sdist. rewrite result_bind, result_call.
  destruct (archive_get a sdist_url) as [r|]; [|discriminate].
  destruct (status r =? 200)%Z; [|discriminate].
  repeat (rewrite result_bind;
          match goal with
          | |- context [match result ?m with _ => _ end] =>
              destruct (result m); [|discriminate]
          end).
  cbn. intros H. now injection H as <-.
Qed.

Section Rescan.

Variable w : world.
Variables package_name temp_dir : string.
Variable overall_task : TaskID.

(** Once the checkout of line 156 comes back with a directory, that
    directory is walked twice: by the sizing pass and by the scan. *)
Lemma scanning_walks (github_url repo_dir : string) :
  result (clone_repo (git_again w) github_url temp_dir) = Ret repo_dir ->
  walked_dirs
    (trace (scanning w package_name temp_dir github_url overall_task))
  = [repo_dir; repo_dir].
Proof.
  intros Hc. unfold scanning.
  pose proof (quiet_walked_dirs _
                (clone_repo_quiet (git_again w) github_url temp_dir)) as Hq.
  destruct (clone_repo (git_again w) github_url temp_dir) as [tc rc].
  cbn in Hc, Hq. subst rc. cbn [bind]. rewrite count_py_files_length. cbn.
  assert (Hf : exists tf,
             trace (find_asserts (sources w) repo_dir (new_task w))
             = Walk repo_dir :: tf /\ walked_dirs tf = []).
  { rewrite find_asserts_paths. cbn [emit bind].
    destruct (scan_paths_other_task (sources w) (new_task w)
                (S (new_task w)) (py_paths (os_walk (sources w) repo_dir))
                [] (Nat.neq_succ_diag_r _)) as (_ & _ & Hw).
    destruct (scan_paths (sources w) (new_task w) _ []) as [t r].
    now exists t. }
  destruct Hf as (tf & Htf & Hwf).
  destruct (find_asserts (sources w) repo_dir (new_task w)) as [tf' [a|e]];
    cbn in Htf; subst tf'.
  - cbn.
    destruct (sink_write w) as [[]|e]; cbn;
      [destruct (sink_flush w) as [[]|e]; cbn|];
      try (destruct (new_task w); cbn);
      rewrite ?walked_dirs_app, Hq; cbn;
      rewrite ?walked_dirs_app, Hwf; reflexivity.
  - cbn. destruct (new_task w); cbn;
      rewrite ?walked_dirs_app, Hq; cbn;
      rewrite ?walked_dirs_app, Hwf; reflexivity.
Qed.

(** On the archive path the scanning block is entered with the empty
    repository URL. *)
Lemma archive_path_walks (sdist_url extracted : string) :
  result (get_github_url (pypi_get_github w) package_name) = Ret "" ->
  result (get_sdist_url (pypi_get_sdist w) package_name) = Ret sdist_url ->
  sdist_url <> "" ->
  result (download_and_extract_sdist (archive w) sdist_url temp_dir)
  = Ret extracted ->
  walked_dirs (trace (process_package w package_name temp_dir overall_task))
  = walked_dirs (trace (scanning w package_name temp_dir "" overall_task)).
Proof.
  intros Hg Hs Hne Hd.
  pose proof (quiet_walked_dirs _
                (get_github_url_quiet (pypi_get_github w) package_name))
    as Qg.
  pose proof (quiet_walked_dirs _
                (get_sdist_url_quiet (pypi_get_sdist w) package_name))
    as Qs.
  pose proof (quiet_walked_dirs _
                (download_and_extract_sdist_quiet
                   (archive w) sdist_url temp_dir)) as Qd.
  unfold process_package. mstep. rewrite Hg. mstep.
  cbn [PyStr.truthy String.eqb negb]. mstep. rewrite Hs. mstep.
  unfold PyStr.truthy. destruct (String.eqb_spec sdist_url "");
    [contradiction|].
  cbn [negb]. mstep. rewrite Hd. mstep.
  rewrite Qg, Qs, Qd. cbn. now rewrite app_nil_r.
Qed.

(** A failed download or extraction ends the pipeline with one advance of
    the overall counter and no record. *)
Lemma archive_failure_contributes_nothing (sdist_url : string) (e : exn) :
  result (get_github_url (pypi_get_github w) package_name) = Ret "" ->
  result (get_sdist_url (pypi_get_sdist w) package_name) = Ret sdist_url ->
  sdist_url <> "" ->
  result (download_and_extract_sdist (archive w) sdist_url temp_dir)
  = Raise e ->
  result (process_package w package_name temp_dir overall_task) = Ret tt
  /\ records (trace (process_package w package_name temp_dir overall_task))
     = []
  /\ advances overall_task
       (trace (process_package w package_name temp_dir overall_task)) = 1.
Proof.
  intros Hg Hs Hne Hd.
  pose proof (get_github_url_quiet (pypi_get_github w) package_name) as Qg.
  pose proof (get_sdist_url_quiet (pypi_get_sdist w) package_name) as Qs.
  pose proof (download_and_extract_sdist_quiet
                (archive w) sdist_url temp_dir) as Qd.
  unfold process_package. mstep. rewrite Hg. mstep.
  cbn [PyStr.truthy String.eqb negb]. mstep. rewrite Hs. mstep.
  unfold PyStr.truthy. destruct (String.eqb_spec sdist_url "");
    [contradiction|].
  cbn [negb]. mstep. rewrite Hd. mstep.
  rewrite !(quiet_records _ Qg), !(quiet_records _ Qs),
    !(quiet_records _ Qd).
  rewrite !(quiet_advances _ _ Qg), !(quiet_advances _ _ Qs),
    !(quiet_advances _ _ Qd).
  rewrite Nat.eqb_refl. auto.
Qed.

End Rescan.

(** C1.  On the code the claim fails: the metadata request of
    [get_github_url] is answered without a repository URL, the request of
    [get_sdist_url] fails in transit, and the exception leaves
    [process_package]; line 135 is the one call that no [try] guards. *)
Theorem process_package_raises_when_sdist_lookup_fails :
  result (process_package sample_world_sdist_lookup_fails "pkgA" "/tmp/ws" 0)
  = Raise (OtherException "ClientConnectionError" "Connection reset by peer")
  /\ records
       (trace (process_package sample_world_sdist_lookup_fails
                 "pkgA" "/tmp/ws" 0)) = [].
Proof.
  destruct (get_sdist_url_failure_escapes
              sample_world_sdist_lookup_fails "pkgA" "/tmp/ws" 0
              (OtherException "ClientConnectionError"
                              "Connection reset by peer")
              eq_refl eq_refl) as (Hr & _ & Hrec).
  now split.
Qed.

(** C2.  On the code the claim fails twice over: when [get_sdist_url]
    raises, the overall counter is not advanced at all; when writing the
    record fails after line 160 has advanced it, the handler of line 169
    advances it a second time. *)
Theorem process_package_advances_zero_or_twice :
  advances 0
    (trace (process_package sample_world_sdist_lookup_fails
              "pkgA" "/tmp/ws" 0)) = 0
  /\ advances 0
       (trace (process_package sample_world_sink_fails "pkgA" "/tmp/ws" 0))
     = 2.
Proof. split; vm_compute; reflexivity. Qed.

(** C3.  [clone_repo], when the subprocess was started and awaited, returns
    the workspace joined with what follows the last slash of the URL.  On
    the archive path the URL is empty: the checkout of line 156 returns the
    workspace itself (with a closing slash where it had none), and both the
    sizing pass and the scan walk that directory, not [extracted] below
    it, which the extraction returned. *)
Theorem clone_repo_path_and_archive_rescan :
  (forall (git : string -> string -> outcome unit) (github_url temp_dir : string),
      git github_url
          (Posixpath.join temp_dir
             (PyStr.last_item (PyStr.split "/" github_url))) = Ret tt ->
      result (clone_repo git github_url temp_dir)
      = Ret (Posixpath.join temp_dir
               (PyStr.last_item (PyStr.split "/" github_url))))
  /\ (forall (w : world) (package_name temp_dir : string)
             (overall_task : TaskID) (sdist_url extracted : string),
         result (get_github_url (pypi_get_github w) package_name) = Ret "" ->
         result (get_sdist_url (pypi_get_sdist w) package_name)
         = Ret sdist_url ->
         sdist_url <> "" ->
         result (download_and_extract_sdist (archive w) sdist_url temp_dir)
         = Ret extracted ->
         git_again w "" (Posixpath.join temp_dir "") = Ret tt ->
         result (clone_repo (git_again w) "" temp_dir)
         = Ret (Posixpath.join temp_dir "")
         /\ (Posixpath.join temp_dir "" = temp_dir
             \/ Posixpath.join temp_dir "" = temp_dir ++ "/")
         /\ extracted = Posixpath.join temp_dir "extracted"
         /\ Posixpath.join temp_dir "" <> extracted
         /\ walked_dirs
              (trace (process_package w package_name temp_dir overall_task))
            = [Posixpath.join temp_dir ""; Posixpath.join temp_dir ""]).
Proof.
  split.
  - intros git github_url temp_dir H.
    pose proof (clone_repo_result git github_url temp_dir) as Hc.
    cbn zeta in Hc. now rewrite H in Hc.
  - intros w package_name temp_dir overall_task sdist_url extracted
           Hg Hs Hne Hd Hgit.
    assert (Hc : result (clone_repo (git_again w) "" temp_dir)
                 = Ret (Posixpath.join temp_dir "")).
    { pose proof (clone_repo_result (git_again w) "" temp_dir) as Hc.
      cbn zeta in Hc.
      change (PyStr.last_item (PyStr.split "/" "")) with "" in Hc.
      now rewrite Hgit in Hc. }
    pose proof (download_and_extract_sdist_dir _ _ _ _ Hd) as ->.
    repeat split.
    + exact Hc.
    + apply join_empty.
    + apply join_extracted_is_below.
    + rewrite (archive_path_walks w package_name temp_dir overall_task
                 sdist_url _ Hg Hs Hne Hd).
      now apply scanning_walks.
Qed.

Lemma clone_repo_path_and_archive_rescan_witness :
  result (clone_repo (fun _ _ => Ret tt) "https://github.com/org/proj"
            "/tmp/ws") = Ret "/tmp/ws/proj"
  /\ walked_dirs
       (trace (process_package
                 (sample_world_archive "https://files.example/pkgA-1.0.tar.gz")
                 "pkgA" "/tmp/ws" 0))
     = ["/tmp/ws/"; "/tmp/ws/"].
Proof.
  split.
  - apply (proj1 clone_repo_path_and_archive_rescan
             (fun _ _ => Ret tt) "https://github.com/org/proj" "/tmp/ws").
    reflexivity.
  - apply (proj2 clone_repo_path_and_archive_rescan
             (sample_world_archive "https://files.example/pkgA-1.0.tar.gz")
             "pkgA" "/tmp/ws" 0 "https://files.example/pkgA-1.0.tar.gz"
             "/tmp/ws/extracted").
    + reflexivity.
    + reflexivity.
    + discriminate.
    + reflexivity.
    + reflexivity.
Defined.

(** C7.  For an archive URL whose file name ends in none of [.tar.gz],
    [.tgz] and [.zip]: once the archive was downloaded and stored and the
    [extracted] directory made, the acquisition raises the unsupported-format
    error; the pipeline then writes no record and advances the overall
    counter once. *)
Theorem unsupported_archive_format_contributes_nothing
    (w : world) (package_name temp_dir : string) (overall_task : TaskID)
    (sdist_url : string) :
  result (get_github_url (pypi_get_github w) package_name) = Ret "" ->
  result (get_sdist_url (pypi_get_sdist w) package_name) = Ret sdist_url ->
  sdist_url <> "" ->
  PyStr.endswith ".tar.gz" (Posixpath.basename sdist_url) = false ->
  PyStr.endswith ".tgz" (Posixpath.basename sdist_url) = false ->
  PyStr.endswith ".zip" (Posixpath.basename sdist_url) = false ->
  archive_get (archive w) sdist_url = Ret {| status := 200; body := Ret tt |} ->
  write_file (archive w)
    (Posixpath.join temp_dir (Posixpath.basename sdist_url)) = Ret tt ->
  makedirs (archive w) (Posixpath.join temp_dir "extracted") = Ret tt ->
  result (download_and_extract_sdist (archive w) sdist_url temp_dir)
  = Raise (ValueError ("Unsupported file format: "
                         ++ Posixpath.basename sdist_url))
  /\ result (process_package w package_name temp_dir overall_task) = Ret tt
  /\ records (trace (process_package w package_name temp_dir overall_task))
     = []
  /\ advances overall_task
       (trace (process_package w package_name temp_dir overall_task)) = 1.
Proof.
  intros Hg Hs Hne Htar Htgz Hzip Hget Hwrite Hmk.
  assert (Hd : result (download_and_extract_sdist (archive w) sdist_url
                         temp_dir)
               = Raise (ValueError ("Unsupported file format: "
                                      ++ Posixpath.basename sdist_url))).
  { unfold download_and_extract_sdist, supported_tar, supported_zip.
    rewrite Hget. cbn -[Posixpath.join Posixpath.basename PyStr.endswith].
    rewrite Hwrite. cbn -[Posixpath.join Posixpath.basename PyStr.endswith].
    rewrite Hmk. cbn -[Posixpath.join Posixpath.basename PyStr.endswith].
    now rewrite Htar, Htgz, Hzip. }
  split; [exact Hd|].
  now apply (archive_failure_contributes_nothing w package_name temp_dir
               overall_task sdist_url _ Hg Hs Hne Hd).
Qed.

Lemma unsupported_archive_format_contributes_nothing_witness :
  result (download_and_extract_sdist sample_archive
            "https://files.example/pkgA-1.0.rar" "/tmp/ws")
  = Raise (ValueError "Unsupported file format: pkgA-1.0.rar")
  /\ result (process_package
               (sample_world_archive "https://files.example/pkgA-1.0.rar")
               "pkgA" "/tmp/ws" 0) = Ret tt
  /\ records (trace (process_package
                       (sample_world_archive
                          "https://files.example/pkgA-1.0.rar")
                       "pkgA" "/tmp/ws" 0)) = []
  /\ advances 0 (trace (process_package
                          (sample_world_archive
                             "https://files.example/pkgA-1.0.rar")
                          "pkgA" "/tmp/ws" 0)) = 1.
Proof.
  apply (unsupported_archive_format_contributes_nothing
           (sample_world_archive "https://files.example/pkgA-1.0.rar")
           "pkgA" "/tmp/ws" 0 "https://files.example/pkgA-1.0.rar");
    try reflexivity.
  discriminate.
Defined.

(** The archive path from end to end: one record with the assertion found
    below the workspace, and one advance of the overall counter. *)
Example archive_path_end_to_end :
  let run :=
    process_package
      (sample_world_archive "https://files.example/pkgA-1.0.tar.gz")
      "pkgA" "/tmp/ws" 0 in
  result run = Ret tt
  /\ records (trace run) = [("pkgA", ["assert x > 0"])]
  /\ advances 0 (trace run) = 1.
Proof. repeat split. Qed.

(* ================================================================= *)
(** ** More on strings and paths *)

Lemma split_nonempty (sep : ascii) (s : string) : PyStr.split sep s <> [].
Proof.
  induction s as [|c s IH]; cbn; [discriminate|].
  destruct (Ascii.eqb c sep); [discriminate|].
  destruct (PyStr.split sep s); [contradiction | discriminate].
Qed.

Lemma split_app (sep : ascii) (a b : string) :
  PyStr.split sep (a ++ String sep b)
  = (PyStr.split sep a ++ PyStr.split sep b)%list.
Proof.
  induction a as [|c a IH]; cbn [append PyStr.split].
  - now rewrite Ascii.eqb_refl.
  - rewrite IH. destruct (Ascii.eqb c sep); [reflexivity|].
    pose proof (split_nonempty sep a) as Hne.
    destruct (PyStr.split sep a) as [|h t]; [contradiction | reflexivity].
Qed.

Lemma split_no_slash (s : string) : no_slash s -> PyStr.split "/" s = [s].
Proof.
  induction s as [|c s IH]; cbn [no_slash PyStr.split]; [reflexivity|].
  intros [Hc Hs]. rewrite (IH Hs).
  now destruct (Ascii.eqb_spec c "/"%char).
Qed.


Lemma last_app_nonempty (l1 l2 : list string) (d : string) :
  l2 <> [] -> last (l1 ++ l2) d = last l2 d.
Proof.
  intros H. induction l1 as [|x l1 IH]; [reflexivity|].
  cbn [app]. destruct (l1 ++ l2)%list eqn:E.
  - apply app_eq_nil in E. destruct E as [_ E]. contradiction.
  - rewrite <- E in *. cbn [last]. rewrite E. rewrite <- E. exact IH.
Qed.

(** What follows the last slash. *)
Lemma last_segment_after_slash (a b : string) :
  no_slash b -> PyStr.last_item (PyStr.split "/" (a ++ String "/" b)) = b.
Proof.
  intros H. unfold PyStr.last_item.
  rewrite split_app, last_app_nonempty by apply split_nonempty.
  now rewrite (split_no_slash b H).
Qed.


Lemma no_slash_not_absolute (s : string) :
  no_slash s -> PyStr.startswith "/" s = false.
Proof.
  destruct s as [|c s]; [reflexivity|]. intros [Hc _].
  unfold PyStr.startswith. cbn [String.prefix].
  destruct (ascii_dec "/" c) as [<-|]; [contradiction | reflexivity].
Qed.

(** Joining a directory and a name without a slash puts the name directly
    below the directory. *)
Lemma join_name (dir name : string) :
  no_slash name ->
  Posixpath.join dir name = dir ++ name
  \/ Posixpath.join dir name = dir ++ "/" ++ name.
Proof.
  intros H. unfold Posixpath.join. rewrite (no_slash_not_absolute _ H).
  destruct (String.eqb dir "" || PyStr.endswith "/" dir); auto.
Qed.

Lemma prefix_app (a b : string) : String.prefix a (a ++ b) = true.
Proof.
  induction a as [|x a IH]; cbn [append String.prefix]; [now destruct b|].
  destruct (ascii_dec x x); [exact IH | contradiction].
Qed.

Lemma contains_app (sub a b : string) :
  PyStr.contains sub (a ++ sub ++ b) = true.
Proof.
  induction a as [|c a IH]; cbn [append].
  - destruct (sub ++ b) eqn:E; cbn [PyStr.contains].
    + destruct sub; [reflexivity | discriminate].
    + rewrite <- E, prefix_app. reflexivity.
  - cbn [PyStr.contains]. rewrite IH. apply orb_true_r.
Qed.

(* ================================================================= *)
(** ** More on the resolver *)

Lemma regexp_match_mentions_github (value group1 : string) :
  regexp_match value = Some group1 ->
  PyStr.contains "github.com" value = true.
Proof.
  intros H. apply regexp_match_sound in H.
  destruct H as (scheme & owner & repo & rest & _ & _ & _ & _ & _ & _
                 & -> & ->).
  replace ((scheme ++ "://github.com/" ++ owner ++ "/" ++ repo) ++ rest)
    with ((scheme ++ "://") ++ "github.com"
          ++ ("/" ++ owner ++ "/" ++ repo ++ rest)).
  - apply contains_app.
  - rewrite !str_app_assoc. reflexivity.
Qed.

Lemma dict_get_in (d : dict) (k v : string) :
  dict_get d k = Some v -> In v (dict_values d).
Proof.
  induction d as [|[k' v'] d IH]; cbn; [discriminate|].
  destruct (String.eqb k' k).
  - intros H. injection H as ->. now left.
  - intros H. right. now apply IH.
Qed.

Lemma lookup_key_in (d : dict) (k v : string) :
  lookup_key d k = Some v -> In v (dict_values d).
Proof.
  unfold lookup_key, py_or.
  destruct (dict_get d k) as [s|] eqn:E.
  - destruct (PyStr.truthy s).
    + intros H. injection H as <-. exact (dict_get_in _ _ _ E).
    + apply dict_get_in.
  - apply dict_get_in.
Qed.

Lemma first_regexp_match_in (values : list string) (g : string) :
  first_regexp_match values = Some g ->
  exists v, In v values /\ regexp_match v = Some g.
Proof.
  induction values as [|v vs IH]; cbn [first_regexp_match]; [discriminate|].
  destruct (regexp_match v) as [g'|] eqn:E.
  - intros H. injection H as ->. exists v. split; [now left | exact E].
  - intros H. destruct (IH H) as (v' & Hin & Hv). exists v'. split; auto.
    now right.
Qed.

Lemma first_github_key_in (d : dict) (keys : list string) (url : string) :
  first_github_key d keys = Some url ->
  In url (dict_values d) /\ PyStr.contains "github.com" url = true.
Proof.
  induction keys as [|k ks IH]; cbn [first_github_key]; [discriminate|].
  destruct (is_github (lookup_key d k)) eqn:E; [|exact IH].
  intros H. rewrite H in E. cbn in E. apply andb_true_iff in E.
  split; [now apply (lookup_key_in d k) | apply E].
Qed.

(** X1.  A mapping none of whose values mentions github.com resolves to the
    empty string: neither the pattern nor a key lookup of either list can
    produce a URL. *)
Theorem resolve_project_urls_without_github (d : dict) :
  (forall v, In v (dict_values d) -> PyStr.contains "github.com" v = false) ->
  resolve_project_urls d = "".
Proof.
  intros H. unfold resolve_project_urls.
  destruct (first_regexp_match (dict_values d)) as [g|] eqn:E1.
  - apply first_regexp_match_in in E1. destruct E1 as (v & Hin & Hv).
    apply regexp_match_mentions_github in Hv. rewrite (H v Hin) in Hv.
    discriminate.
  - destruct (first_github_key d possible_keys) as [u|] eqn:E2.
    + apply first_github_key_in in E2. destruct E2 as [Hin Hu].
      rewrite (H u Hin) in Hu. discriminate.
    + destruct (first_github_key d possible_issue_keys) as [u|] eqn:E3;
        [|reflexivity].
      apply first_github_key_in in E3. destruct E3 as [Hin Hu].
      rewrite (H u Hin) in Hu. discriminate.
Qed.

Lemma resolve_project_urls_without_github_witness :
  resolve_project_urls sample_urls_elsewhere = "".
Proof.
  apply (resolve_project_urls_without_github sample_urls_elsewhere).
  intros v [<- | [<- | [<- | []]]]; reflexivity.
Defined.

Lemma regexp_match_prefix_stable_aux (value group1 : string) :
  regexp_match value = Some group1 -> regexp_match group1 = Some group1.
Proof.
  intros H. apply regexp_match_sound in H.
  destruct H as (scheme & owner & repo & rest & Hs & Ho & Hso & Hr & Hsr
                 & Hrest & -> & ->).
  apply regexp_match_complete.
  exists scheme, owner, repo, "". repeat split; auto.
  now rewrite str_app_nil_r.
Qed.

(** X2.  What the pattern stage returns is the beginning of the value it was
    found in, and it is stable: matched against the pattern again, the
    returned URL comes back unchanged. *)
Theorem regexp_match_prefix_and_stable (value group1 : string) :
  regexp_match value = Some group1 ->
  (exists rest, value = group1 ++ rest)
  /\ regexp_match group1 = Some group1.
Proof.
  intros H. split; [|exact (regexp_match_prefix_stable_aux _ _ H)].
  apply regexp_match_sound in H.
  destruct H as (scheme & owner & repo & rest & _ & _ & _ & _ & _ & _
                 & -> & ->).
  now exists rest.
Qed.

Lemma regexp_match_prefix_and_stable_witness :
  (exists rest,
      "https://github.com/pablogsal/assert_gatherer/tree/main"
      = "https://github.com/pablogsal/assert_gatherer" ++ rest)
  /\ regexp_match "https://github.com/pablogsal/assert_gatherer"
     = Some "https://github.com/pablogsal/assert_gatherer".
Proof.
  apply (regexp_match_prefix_and_stable
           "https://github.com/pablogsal/assert_gatherer/tree/main").
  reflexivity.
Defined.

(** X3.  The usual issue-tracker URL: when neither the pattern nor the
    well-known keys yield a URL and the first issue key that mentions
    github.com holds [base/issues] with no other [/issues] in it, the
    resolver returns [base]. *)
Theorem resolve_project_urls_tracker_url
    (d : dict) (before after : list string) (key base : string) :
  (forall v, In v (dict_values d) -> regexp_match v = None) ->
  (forall k, In k possible_keys -> is_github (lookup_key d k) = false) ->
  possible_issue_keys = (before ++ key :: after)%list ->
  (forall k, In k before -> is_github (lookup_key d k) = false) ->
  lookup_key d key = Some (base ++ "/issues") ->
  PyStr.contains "github.com" (base ++ "/issues") = true ->
  PyStr.contains "/issues" base = false ->
  resolve_project_urls d = base.
Proof.
  intros Hpat Hwell Hkeys Hbefore Hfound Hgh Honly.
  unfold resolve_project_urls.
  assert (first_regexp_match (dict_values d) = None) as ->.
  { induction (dict_values d) as [|v vs IH]; [reflexivity|].
    cbn [first_regexp_match]. rewrite (Hpat v) by now left.
    apply IH. intros v' Hin. apply Hpat. now right. }
  rewrite (first_github_key_none d possible_keys Hwell), Hkeys.
  rewrite (first_github_key_app d before after key (base ++ "/issues"));
    auto.
  - now apply replace_issues_trailing.
  - cbn [is_github]. rewrite Hgh.
    destruct base; reflexivity.
Qed.

Lemma resolve_project_urls_tracker_url_witness :
  resolve_project_urls sample_urls_tracker = "https://www.github.com/org/proj".
Proof.
  apply (resolve_project_urls_tracker_url
           sample_urls_tracker ["Issues"] ["Bug Reports"] "Bug Tracker"
           "https://www.github.com/org/proj").
  - intros v [<- | [<- | []]]; reflexivity.
  - intros k Hin. cbn in Hin.
    repeat (destruct Hin as [<- | Hin]; [reflexivity|]). destruct Hin.
  - reflexivity.
  - intros k [<- | []]. reflexivity.
  - reflexivity.
  - reflexivity.
  - reflexivity.
Defined.

(* ================================================================= *)
(** ** More on the source archive and the checkout *)

Lemma first_sdist_app (before after : list url_info) (a : url_info) :
  (forall b, In b before -> packagetype b <> "sdist") ->
  packagetype a = "sdist" ->
  first_sdist (before ++ a :: after) = url a.
Proof.
  intros Hb Ha. induction before as [|b bs IH]; cbn [app first_sdist].
  - rewrite Ha. reflexivity.
  - destruct (String.eqb_spec (packagetype b) "sdist") as [E|_].
    + exfalso. apply (Hb b); [now left | exact E].
    + apply IH. intros b' Hin. apply Hb. now right.
Qed.

Lemma first_sdist_none (artifacts : list url_info) :
  (forall b, In b artifacts -> packagetype b <> "sdist") ->
  first_sdist artifacts = "".
Proof.
  induction artifacts as [|b bs IH]; intros H; [reflexivity|].
  cbn [first_sdist].
  destruct (String.eqb_spec (packagetype b) "sdist") as [E|_].
  - exfalso. apply (H b); [now left | exact E].
  - apply IH. intros b' Hin. apply H. now right.
Qed.

Lemma releases_get_app
    (r1 r2 : list (string * list url_info)) (v : string)
    (artifacts : list url_info) :
  (forall k l, In (k, l) r1 -> k <> v) ->
  releases_get (r1 ++ (v, artifacts) :: r2) v = artifacts.
Proof.
  intros H. induction r1 as [|[k l] r1 IH]; cbn [app releases_get].
  - now rewrite String.eqb_refl.
  - destruct (String.eqb_spec k v) as [E|_].
    + exfalso. apply (H k l); [now left | exact E].
    + apply IH. intros k' l' Hin. apply (H k' l'). now right.
Qed.

Lemma releases_get_absent (r : list (string * list url_info)) (v : string) :
  (forall k l, In (k, l) r -> k <> v) -> releases_get r v = [].
Proof.
  induction r as [|[k l] r IH]; intros H; [reflexivity|].
  cbn [releases_get]. destruct (String.eqb_spec k v) as [E|_].
  - exfalso. apply (H k l); [now left | exact E].
  - apply IH. intros k' l' Hin. apply (H k' l'). now right.
Qed.

(** X4.  For a response with status 200, [get_sdist_url] returns the URL of
    the first artifact of type [sdist] among those listed for the version
    that [info.version] names; artifacts of other types before it are passed
    over, and the artifacts of other versions are not looked at. *)
Theorem get_sdist_url_first_sdist_of_latest
    (get : string -> outcome (response pypi_data)) (package_name : string)
    (data : pypi_data) (i : pypi_info) (v : string)
    (r1 r2 : list (string * list url_info))
    (before after : list url_info) (a : url_info) :
  get ("https://pypi.org/pypi/" ++ package_name ++ "/json")
  = Ret {| status := 200; body := Ret data |} ->
  info data = Present i ->
  version i = Present v ->
  releases data = Present (r1 ++ (v, before ++ a :: after) :: r2)%list ->
  (forall k l, In (k, l) r1 -> k <> v) ->
  (forall b, In b before -> packagetype b <> "sdist") ->
  packagetype a = "sdist" ->
  result (get_sdist_url get package_name) = Ret (url a).
Proof.
  intros Hget Hinfo Hver Hrel Hr1 Hbefore Ha.
  unfold get_sdist_url. rewrite Hget. cbn. rewrite Hinfo, Hver, Hrel. cbn.
  now rewrite releases_get_app, first_sdist_app.
Qed.

Lemma get_sdist_url_first_sdist_of_latest_witness :
  result (get_sdist_url
            (fun _ => sample_metadata []
                        (sample_releases "https://files.example/pkgA-1.0.tar.gz"))
            "pkgA")
  = Ret "https://files.example/pkgA-1.0.tar.gz".
Proof.
  eapply (get_sdist_url_first_sdist_of_latest _ "pkgA" _ _ "1.0"
            [("0.9", [{| packagetype := "sdist";
                         url := "https://files.example/old.zip" |}])]
            []
            [{| packagetype := "bdist_wheel";
                url := "https://files.example/pkgA-1.0-py3-none-any.whl" |}]
            []
            {| packagetype := "sdist";
               url := "https://files.example/pkgA-1.0.tar.gz" |}).
  - reflexivity.
  - reflexivity.
  - reflexivity.
  - reflexivity.
  - intros k l [H | []]. injection H as <- _. discriminate.
  - intros b [<- | []]. discriminate.
  - reflexivity.
Defined.

(** X5.  When the version that [info.version] names has no artifact of type
    [sdist] (only wheels, or no entry at all under [releases]),
    [get_sdist_url] returns the empty string, even if older versions have a
    source archive. *)
Theorem get_sdist_url_without_sdist
    (get : string -> outcome (response pypi_data)) (package_name : string)
    (data : pypi_data) (i : pypi_info) (v : string)
    (r : list (string * list url_info)) :
  get ("https://pypi.org/pypi/" ++ package_name ++ "/json")
  = Ret {| status := 200; body := Ret data |} ->
  info data = Present i ->
  version i = Present v ->
  releases data = Present r ->
  (forall l b, In (v, l) r -> In b l -> packagetype b <> "sdist") ->
  result (get_sdist_url get package_name) = Ret "".
Proof.
  intros Hget Hinfo Hver Hrel Hnone.
  unfold get_sdist_url. rewrite Hget. cbn. rewrite Hinfo, Hver, Hrel. cbn.
  f_equal. apply first_sdist_none.
  clear Hrel. induction r as [|[k l] r IH]; cbn [releases_get];
    [intros b []|].
  destruct (String.eqb_spec k v) as [->|_].
  - intros b Hb. apply (Hnone l b); [now left | exact Hb].
  - apply IH. intros l' b Hin. apply Hnone. now right.
Qed.

Lemma get_sdist_url_without_sdist_witness :
  result (get_sdist_url
            (fun _ => sample_metadata []
                        [("0.9", [{| packagetype := "sdist";
                                     url := "https://files.example/old.zip" |}]);
                         ("1.0", [{| packagetype := "bdist_wheel";
                                     url := "https://files.example/new.whl" |}])])
            "pkgA")
  = Ret "".
Proof.
  eapply (get_sdist_url_without_sdist _ "pkgA" _ _ "1.0").
  - reflexivity.
  - reflexivity.
  - reflexivity.
  - reflexivity.
  - intros l b [H | [H | []]] Hb.
    + discriminate.
    + injection H as <-. destruct Hb as [<- | []]. discriminate.
Defined.

(** X6.  The checkout directory is named after what follows the last slash of
    the URL and after nothing else: repositories of the same name under
    different owners go to the same directory of the workspace, and a URL
    that ends in a slash goes to the workspace itself. *)
Theorem clone_repo_directory_is_last_segment
    (git : string -> string -> outcome unit) (front name temp_dir : string) :
  no_slash name ->
  git (front ++ String "/" name) (Posixpath.join temp_dir name) = Ret tt ->
  result (clone_repo git (front ++ String "/" name) temp_dir)
  = Ret (Posixpath.join temp_dir name)
  /\ (Posixpath.join temp_dir name = temp_dir ++ name
      \/ Posixpath.join temp_dir name = temp_dir ++ "/" ++ name).
Proof.
  intros Hname Hgit. split; [|now apply join_name].
  pose proof (clone_repo_result git (front ++ String "/" name) temp_dir) as H.
  cbn zeta in H. rewrite (last_segment_after_slash front name Hname) in H.
  now rewrite Hgit in H.
Qed.

Lemma clone_repo_directory_is_last_segment_witness :
  (result (clone_repo (fun _ _ => Ret tt) "https://github.com/alice/utils"
             "/tmp/ws") = Ret "/tmp/ws/utils"
   /\ ("/tmp/ws/utils" = "/tmp/ws" ++ "utils"
       \/ "/tmp/ws/utils" = "/tmp/ws" ++ "/" ++ "utils"))
  /\ (result (clone_repo (fun _ _ => Ret tt) "https://github.com/bob/utils"
                "/tmp/ws") = Ret "/tmp/ws/utils"
      /\ ("/tmp/ws/utils" = "/tmp/ws" ++ "utils"
          \/ "/tmp/ws/utils" = "/tmp/ws" ++ "/" ++ "utils")).
Proof.
  split.
  - apply (clone_repo_directory_is_last_segment
             (fun _ _ => Ret tt) "https://github.com/alice" "utils" "/tmp/ws");
      [now repeat split | reflexivity].
  - apply (clone_repo_directory_is_last_segment
             (fun _ _ => Ret tt) "https://github.com/bob" "utils" "/tmp/ws");
      [now repeat split | reflexivity].
Defined.

Lemma saved_files_app (t1 t2 : list event) :
  saved_files (t1 ++ t2) = (saved_files t1 ++ saved_files t2)%list.
Proof.
  induction t1 as [|ev t1 IH]; [reflexivity|].
  destruct ev; cbn; now rewrite IH.
Qed.



(* ================================================================= *)
(** ** The paths through the pipeline, event by event *)

Lemma scan_failed_eq
    (package_name : string) (overall_task : TaskID)
    (package_task : option TaskID) (e : exn) :
  scan_failed package_name overall_task package_task e
  = (Stdout ("Error processing " ++ package_name ++ ": " ++ exn_str e)
       :: Advance overall_task 1
       :: match package_task with
          | Some (S t) => [RemoveTask (S t)]
          | _ => []
          end,
     Ret tt).
Proof. unfold scan_failed. destruct package_task as [[|t]|]; reflexivity. Qed.

Lemma scan_failed_nonzero
    (package_name : string) (overall_task task : TaskID) (e : exn) :
  task <> 0 ->
  scan_failed package_name overall_task (Some task) e
  = ([Stdout ("Error processing " ++ package_name ++ ": " ++ exn_str e);
      Advance overall_task 1; RemoveTask task],
     Ret tt).
Proof. destruct task; [contradiction | reflexivity]. Qed.

Section Paths.

Variable w : world.
Variables package_name temp_dir : string.
Variable overall_task : TaskID.

(** What the scanning block does once the checkout of line 156 came back
    with [repo_dir]. *)
Lemma scanning_trace (github_url repo_dir : string) :
  result (clone_repo (git_again w) github_url temp_dir) = Ret repo_dir ->
  let scan := find_asserts (sources w) repo_dir (new_task w) in
  let failed e :=
    trace (scan_failed package_name overall_task (Some (new_task w)) e) in
  trace (scanning w package_name temp_dir github_url overall_task)
  = (trace (clone_repo (git_again w) github_url temp_dir)
     ++ [Walk repo_dir;
         AddTask ("[cyan]Processing " ++ package_name)
                 (length (py_paths (os_walk (sources w) repo_dir)))
                 (new_task w)]
     ++ trace scan
     ++ match result scan with
        | Raise e => failed e
        | Ret asserts =>
            Advance overall_task 1 :: RemoveTask (new_task w)
            :: match sink_write w with
               | Raise e => failed e
               | Ret _ =>
                   SinkWrite package_name asserts
                   :: match sink_flush w with
                      | Raise e => failed e
                      | Ret _ => [SinkFlush]
                      end
               end
        end)%list.
Proof.
  intros Hc scan failed. unfold scanning.
  rewrite trace_bind, trace_try_except, result_try_except.
  rewrite trace_bind, result_bind, Hc.
  rewrite count_py_files_length. cbn [bind emit ret trace result fst snd app].
  rewrite trace_try_except, trace_bind. fold scan.
  rewrite result_bind.
  rewrite <- !app_assoc. cbn [app]. do 3 f_equal.
  f_equal.
  destruct (result scan) as [asserts|e]; [|reflexivity].
  destruct (sink_write w) as [[]|e];
    [destruct (sink_flush w) as [[]|e]|];
    cbn; rewrite ?app_nil_r; reflexivity.
Qed.

(** The pipeline on the repository path, up to the scanning block. *)
Lemma repository_path_trace (github_url repo_dir : string) :
  result (get_github_url (pypi_get_github w) package_name) = Ret github_url ->
  github_url <> "" ->
  result (clone_repo (git_first w) github_url temp_dir) = Ret repo_dir ->
  trace (process_package w package_name temp_dir overall_task)
  = (Acquire
       :: trace (get_github_url (pypi_get_github w) package_name)
       ++ trace (clone_repo (git_first w) github_url temp_dir)
       ++ trace (scanning w package_name temp_dir github_url overall_task)
       ++ [Release])%list
  /\ result (process_package w package_name temp_dir overall_task) = Ret tt.
Proof.
  intros Hg Hne Hc. unfold process_package. mstep. rewrite Hg. mstep.
  unfold PyStr.truthy. destruct (String.eqb_spec github_url "");
    [contradiction|].
  cbn [negb]. mstep. rewrite Hc. mstep.
  rewrite scanning_returns. split; [|reflexivity].
  rewrite !app_nil_r, <- !app_assoc. reflexivity.
Qed.

End Paths.

Lemma removals_app (task : TaskID) (t1 t2 : list event) :
  removals task (t1 ++ t2) = removals task t1 + removals task t2.
Proof.
  induction t1 as [|ev t1 IH]; [reflexivity|].
  destruct ev; cbn; rewrite IH; lia.
Qed.

Lemma quiet_removals (task : TaskID) (t : list event) :
  quiet t -> removals task t = 0.
Proof.
  unfold quiet. induction t as [|ev t IH]; [reflexivity|].
  cbn [forallb]. intros H. apply andb_true_iff in H. destruct H as [Hev Ht].
  destruct ev; try discriminate; cbn; auto.
Qed.

Lemma scan_paths_events
    (env : scan_env) (task_id : TaskID) (paths asserts : list string) :
  forallb (scan_event task_id) (trace (scan_paths env task_id paths asserts))
  = true.
Proof.
  revert asserts. induction paths as [|path rest IH]; intros asserts;
    [reflexivity|].
  destruct (read_parse env path) as [tree|e] eqn:E.
  - rewrite (scan_paths_parsed _ _ _ _ _ _ E), trace_bind, forallb_app.
    cbn [trace fst result snd forallb scan_event].
    now rewrite Nat.eqb_refl, IH.
  - destruct (is_SyntaxError e) eqn:He.
    + rewrite (scan_paths_syntax_error _ _ _ _ _ _ E He), trace_bind,
        forallb_app.
      cbn [trace fst result snd forallb scan_event].
      now rewrite Nat.eqb_refl, IH.
    + now rewrite (scan_paths_fatal _ _ _ _ _ _ E He).
Qed.

Lemma scan_events_measures (task other : TaskID) (t : list event) :
  forallb (scan_event task) t = true ->
  records t = [] /\ removals other t = 0
  /\ (task <> other -> advances other t = 0).
Proof.
  induction t as [|ev t IH]; [now repeat split|].
  cbn [forallb]. intros H. apply andb_true_iff in H. destruct H as [Hev Ht].
  destruct (IH Ht) as (Hr & Hm & Ha).
  destruct ev; try discriminate; cbn; repeat split; auto.
  intros Hne. cbn in Hev. apply andb_true_iff in Hev. destruct Hev as [Hk _].
  apply Nat.eqb_eq in Hk. subst task0.
  apply Nat.eqb_neq in Hne. rewrite Hne. now apply Ha, Nat.eqb_neq.
Qed.

Lemma find_asserts_measures
    (env : scan_env) (repo_dir : string) (task other : TaskID) :
  records (trace (find_asserts env repo_dir task)) = []
  /\ removals other (trace (find_asserts env repo_dir task)) = 0
  /\ (task <> other ->
      advances other (trace (find_asserts env repo_dir task)) = 0).
Proof.
  rewrite find_asserts_paths, trace_bind. cbn [emit trace fst result snd app].
  apply (scan_events_measures task other
           (trace (scan_paths env task (py_paths (os_walk env repo_dir)) []))).
  apply scan_paths_events.
Qed.

Ltac measure :=
  repeat first
    [ rewrite advances_app | rewrite records_app | rewrite removals_app
    | progress cbn [advances records removals app Nat.add] ].

Section Outcomes.

Variable w : world.
Variables package_name temp_dir : string.
Variable overall_task : TaskID.

(** Up to the scanning block the pipeline touches neither a counter nor
    the result file. *)
Lemma scanning_reached (github_url : string) :
  reaches_scanning w package_name temp_dir github_url ->
  result (process_package w package_name temp_dir overall_task) = Ret tt
  /\ exists before,
       trace (process_package w package_name temp_dir overall_task)
       = (before
          ++ trace (scanning w package_name temp_dir github_url overall_task)
          ++ [Release])%list
       /\ records before = []
       /\ (forall task, advances task before = 0)
       /\ (forall task, removals task before = 0).
Proof.
  intros [Hg Hpath].
  pose proof (get_github_url_quiet (pypi_get_github w) package_name) as Qg.
  destruct Hpath as [[Hne [repo_dir Hc]] | [-> (sdist_url & extracted & Hs & Hne & Hd)]].
  - destruct (repository_path_trace w package_name temp_dir overall_task
                github_url repo_dir Hg Hne Hc) as [Ht Hr].
    split; [exact Hr|].
    pose proof (clone_repo_quiet (git_first w) github_url temp_dir) as Qc.
    exists (Acquire
              :: trace (get_github_url (pypi_get_github w) package_name)
              ++ trace (clone_repo (git_first w) github_url temp_dir))%list.
    rewrite Ht. cbn [app]. rewrite <- !app_assoc.
    repeat split; try reflexivity; intros; measure;
      rewrite ?(quiet_records _ Qg), ?(quiet_records _ Qc),
        ?(quiet_advances _ _ Qg), ?(quiet_advances _ _ Qc),
        ?(quiet_removals _ _ Qg), ?(quiet_removals _ _ Qc); reflexivity.
  - pose proof (get_sdist_url_quiet (pypi_get_sdist w) package_name) as Qs.
    pose proof (download_and_extract_sdist_quiet
                  (archive w) sdist_url temp_dir) as Qd.
    unfold process_package. mstep. rewrite Hg. mstep.
    cbn [PyStr.truthy String.eqb negb]. mstep. rewrite Hs. mstep.
    unfold PyStr.truthy. destruct (String.eqb_spec sdist_url "");
      [contradiction|].
    cbn [negb]. mstep. rewrite Hd. mstep.
    rewrite scanning_returns. split; [reflexivity|].
    exists (Acquire
              :: trace (get_github_url (pypi_get_github w) package_name)
              ++ Stdout ("No GitHub URL found for " ++ package_name
                         ++ ", trying sdist...")
              :: trace (get_sdist_url (pypi_get_sdist w) package_name)
              ++ trace (download_and_extract_sdist
                          (archive w) sdist_url temp_dir))%list.
    split.
    + rewrite !app_nil_r. cbn [app]. rewrite <- !app_assoc. cbn [app].
      rewrite <- !app_assoc. reflexivity.
    + repeat split; intros; measure;
        rewrite ?(quiet_records _ Qg), ?(quiet_records _ Qs),
          ?(quiet_records _ Qd),
          ?(quiet_advances _ _ Qg), ?(quiet_advances _ _ Qs),
          ?(quiet_advances _ _ Qd),
          ?(quiet_removals _ _ Qg), ?(quiet_removals _ _ Qs),
          ?(quiet_removals _ _ Qd); reflexivity.
Qed.

(** The counters and the result file after the scanning block, by the
    way the scan and the two writes end. *)
Lemma scanning_measures (github_url repo_dir : string) :
  result (clone_repo (git_again w) github_url temp_dir) = Ret repo_dir ->
  new_task w <> overall_task ->
  new_task w <> 0 ->
  let scan := find_asserts (sources w) repo_dir (new_task w) in
  let t := trace (scanning w package_name temp_dir github_url overall_task) in
  match result scan with
  | Raise _ =>
      records t = [] /\ advances overall_task t = 1
      /\ removals (new_task w) t = 1
  | Ret asserts =>
      match sink_write w, sink_flush w with
      | Ret _, Ret _ =>
          records t = [(package_name, asserts)]
          /\ advances overall_task t = 1 /\ removals (new_task w) t = 1
      | Ret _, Raise _ =>
          records t = [(package_name, asserts)]
          /\ advances overall_task t = 2 /\ removals (new_task w) t = 2
      | Raise _, _ =>
          records t = [] /\ advances overall_task t = 2
          /\ removals (new_task w) t = 2
      end
  end.
Proof.
  intros Hc Hne Hnz scan t. unfold t.
  rewrite (scanning_trace w package_name temp_dir overall_task
             github_url repo_dir Hc).
  cbn zeta. fold scan.
  pose proof (clone_repo_quiet (git_again w) github_url temp_dir) as Qc.
  destruct (find_asserts_measures (sources w) repo_dir (new_task w)
              overall_task) as (_ & _ & Ha).
  destruct (find_asserts_measures (sources w) repo_dir (new_task w)
              (new_task w)) as (Hr & Hm & _).
  fold scan in Ha, Hr, Hm. specialize (Ha Hne).
  assert (Hov : Nat.eqb (new_task w) overall_task = false)
    by now apply Nat.eqb_neq.
  destruct (result scan) as [asserts|e];
    [destruct (sink_write w) as [[]|e1];
     [destruct (sink_flush w) as [[]|e2]|]|];
    rewrite ?(scan_failed_nonzero _ _ _ _ Hnz);
    cbn [trace fst]; measure;
    rewrite ?(quiet_records _ Qc), ?(quiet_advances _ _ Qc),
      ?(quiet_removals _ _ Qc), ?Ha, ?Hr, ?Hm;
    rewrite ?Nat.eqb_refl, ?Hov; auto.
Qed.

(** The scanning block writes no record, or one for this package. *)
Lemma scanning_records (github_url : string) :
  records (trace (scanning w package_name temp_dir github_url overall_task))
  = []
  \/ exists asserts,
       records
         (trace (scanning w package_name temp_dir github_url overall_task))
       = [(package_name, asserts)].
Proof.
  pose proof (clone_repo_quiet (git_again w) github_url temp_dir) as Qc.
  destruct (result (clone_repo (git_again w) github_url temp_dir))
    as [repo_dir|e] eqn:Hc.
  - rewrite (scanning_trace w package_name temp_dir overall_task
               github_url repo_dir Hc).
    cbn zeta.
    destruct (find_asserts_measures (sources w) repo_dir (new_task w) 0)
      as (Hr & _ & _).
    destruct (result (find_asserts (sources w) repo_dir (new_task w)))
      as [asserts|e];
      [destruct (sink_write w) as [[]|e1];
       [destruct (sink_flush w) as [[]|e2]|]|];
      rewrite ?scan_failed_eq; cbn [trace fst];
      measure; rewrite ?(quiet_records _ Qc), ?Hr;
      cbn [records app];
      try (right; exists asserts;
           destruct (new_task w); reflexivity);
      left; destruct (new_task w); reflexivity.
  - left. unfold scanning.
    rewrite trace_bind, trace_try_except, result_try_except.
    rewrite trace_bind, result_bind, Hc.
    cbn [bind emit ret trace result fst snd app].
    rewrite scan_failed_eq.
    cbn [bind emit ret trace result fst snd app].
    measure. now rewrite (quiet_records _ Qc).
Qed.

End Outcomes.

(* ================================================================= *)
(** ** What one run of the pipeline leaves behind *)

(** X8.  When [get_github_url] raises (the request fails, the body is no
    JSON, or [project_urls] is [null]), the pipeline prints the error,
    advances the overall counter and stops: the source archive is never
    asked for, nothing is fetched or scanned, no record is written. *)
Theorem resolution_failure_ends_pipeline
    (w : world) (package_name temp_dir : string) (overall_task : TaskID)
    (e : exn) :
  result (get_github_url (pypi_get_github w) package_name) = Raise e ->
  result (process_package w package_name temp_dir overall_task) = Ret tt
  /\ trace (process_package w package_name temp_dir overall_task)
     = (Acquire
          :: trace (get_github_url (pypi_get_github w) package_name)
          ++ [Stdout ("Error getting GitHub URL for " ++ package_name ++ ": "
                      ++ exn_str e);
              Advance overall_task 1; Release])%list.
Proof.
  intros Hg. unfold process_package. mstep. rewrite Hg. mstep.
  split; [reflexivity|]. now rewrite !app_nil_r, <- !app_assoc.
Qed.

Lemma resolution_failure_ends_pipeline_witness :
  result (process_package sample_world_null_urls "pkgA" "/tmp/ws" 0) = Ret tt
  /\ trace (process_package sample_world_null_urls "pkgA" "/tmp/ws" 0)
     = [Acquire; HttpGet "https://pypi.org/pypi/pkgA/json";
        Stdout "Error getting GitHub URL for pkgA: 'NoneType' object has no attribute 'values'";
        Advance 0 1; Release].
Proof.
  apply (resolution_failure_ends_pipeline
           sample_world_null_urls "pkgA" "/tmp/ws" 0
           (no_such_attribute "values")).
  reflexivity.
Defined.

(** X9.  When the index answers both metadata requests with a status other
    than 200, the bodies are not read, and the pipeline does exactly this:
    two requests, the two messages, one advance of the overall counter. *)
Theorem unknown_package_ends_pipeline
    (w : world) (package_name temp_dir : string) (overall_task : TaskID)
    (rg rs : response pypi_data) :
  let pypi_url := "https://pypi.org/pypi/" ++ package_name ++ "/json" in
  pypi_get_github w pypi_url = Ret rg -> status rg <> 200%Z ->
  pypi_get_sdist w pypi_url = Ret rs -> status rs <> 200%Z ->
  result (process_package w package_name temp_dir overall_task) = Ret tt
  /\ trace (process_package w package_name temp_dir overall_task)
     = [Acquire; HttpGet pypi_url;
        Stdout ("No GitHub URL found for " ++ package_name
                ++ ", trying sdist...");
        HttpGet pypi_url;
        Stdout ("No sdist URL found for " ++ package_name);
        Advance overall_task 1; Release].
Proof.
  intros pypi_url Hg Hsg Hs Hss.
  apply Z.eqb_neq in Hsg. apply Z.eqb_neq in Hss.
  assert (Eg : get_github_url (pypi_get_github w) package_name
               = ([HttpGet pypi_url], Ret "")).
  { unfold get_github_url. fold pypi_url. rewrite Hg. cbn [call bind].
    now rewrite Hsg. }
  assert (Es : get_sdist_url (pypi_get_sdist w) package_name
               = ([HttpGet pypi_url], Ret "")).
  { unfold get_sdist_url. fold pypi_url. rewrite Hs. cbn [call bind].
    now rewrite Hss. }
  unfold process_package. rewrite Eg, Es. split; reflexivity.
Qed.

Lemma unknown_package_ends_pipeline_witness :
  result (process_package sample_world_not_found "pkgA" "/tmp/ws" 0) = Ret tt
  /\ trace (process_package sample_world_not_found "pkgA" "/tmp/ws" 0)
     = [Acquire; HttpGet "https://pypi.org/pypi/pkgA/json";
        Stdout "No GitHub URL found for pkgA, trying sdist...";
        HttpGet "https://pypi.org/pypi/pkgA/json";
        Stdout "No sdist URL found for pkgA";
        Advance 0 1; Release].
Proof.
  apply (unknown_package_ends_pipeline
           sample_world_not_found "pkgA" "/tmp/ws" 0
           {| status := 404;
              body := Raise (OtherException "ContentTypeError" "") |}
           {| status := 404;
              body := Raise (OtherException "ContentTypeError" "") |});
    (reflexivity || discriminate).
Defined.

(** X10.  When the archive request is answered with a status other than
    200, nothing is stored or unpacked: the download raises "Failed to
    download sdist from <url>", and the pipeline prints it, advances the
    overall counter and ends without a checkout, a scan or a record. *)
Theorem archive_not_downloaded_ends_pipeline
    (w : world) (package_name temp_dir : string) (overall_task : TaskID)
    (sdist_url : string) (r : response unit) :
  result (get_github_url (pypi_get_github w) package_name) = Ret "" ->
  result (get_sdist_url (pypi_get_sdist w) package_name) = Ret sdist_url ->
  sdist_url <> "" ->
  archive_get (archive w) sdist_url = Ret r -> status r <> 200%Z ->
  result (process_package w package_name temp_dir overall_task) = Ret tt
  /\ trace (process_package w package_name temp_dir overall_task)
     = (Acquire
          :: trace (get_github_url (pypi_get_github w) package_name)
          ++ Stdout ("No GitHub URL found for " ++ package_name
                     ++ ", trying sdist...")
          :: trace (get_sdist_url (pypi_get_sdist w) package_name)
          ++ [HttpGet sdist_url;
              Stdout ("Error downloading or extracting sdist for "
                      ++ package_name ++ ": Failed to download sdist from "
                      ++ sdist_url);
              Advance overall_task 1; Release])%list.
Proof.
  intros Hg Hs Hne Hget Hst. apply Z.eqb_neq in Hst.
  assert (Ed : download_and_extract_sdist (archive w) sdist_url temp_dir
               = ([HttpGet sdist_url],
                  Raise (ValueError ("Failed to download sdist from "
                                       ++ sdist_url)))).
  { unfold download_and_extract_sdist. rewrite Hget. cbn [call bind].
    now rewrite Hst. }
  unfold process_package. mstep. rewrite Hg. mstep.
  cbn [PyStr.truthy String.eqb negb]. mstep. rewrite Hs. mstep.
  unfold PyStr.truthy. destruct (String.eqb_spec sdist_url "");
    [contradiction|].
  cbn [negb]. mstep. rewrite Ed. mstep. split; [reflexivity|].
  cbn [exn_str]. rewrite !app_nil_r. cbn [app]. rewrite <- !app_assoc.
  cbn [app]. rewrite <- !app_assoc. reflexivity.
Qed.

Lemma archive_not_downloaded_ends_pipeline_witness :
  result (process_package sample_world_archive_gone "pkgA" "/tmp/ws" 0)
  = Ret tt
  /\ trace (process_package sample_world_archive_gone "pkgA" "/tmp/ws" 0)
     = [Acquire; HttpGet "https://pypi.org/pypi/pkgA/json";
        Stdout "No GitHub URL found for pkgA, trying sdist...";
        HttpGet "https://pypi.org/pypi/pkgA/json";
        HttpGet "https://files.example/pkgA-1.0.tar.gz";
        Stdout "Error downloading or extracting sdist for pkgA: Failed to download sdist from https://files.example/pkgA-1.0.tar.gz";
        Advance 0 1; Release].
Proof.
  apply (archive_not_downloaded_ends_pipeline
           sample_world_archive_gone "pkgA" "/tmp/ws" 0
           "https://files.example/pkgA-1.0.tar.gz"
           {| status := 404; body := Ret tt |});
    (reflexivity || discriminate).
Defined.

Section Results.

Variable w : world.
Variables package_name temp_dir github_url repo_dir : string.
Variable overall_task : TaskID.

Hypothesis Hreach : reaches_scanning w package_name temp_dir github_url.
Hypothesis Hclone :
  result (clone_repo (git_again w) github_url temp_dir) = Ret repo_dir.
Hypothesis Hovr : new_task w <> overall_task.
Hypothesis Hnz : new_task w <> 0.

(** The counters and the result file after the whole pipeline, once the
    scanning block was reached and its checkout came back. *)
Lemma pipeline_measures :
  let t := trace (process_package w package_name temp_dir overall_task) in
  let s := trace (scanning w package_name temp_dir github_url overall_task) in
  result (process_package w package_name temp_dir overall_task) = Ret tt
  /\ records t = records s
  /\ advances overall_task t = advances overall_task s
  /\ removals (new_task w) t = removals (new_task w) s.
Proof.
  cbn zeta.
  destruct (scanning_reached w package_name temp_dir overall_task
              github_url Hreach) as (Hr & before & -> & Hb1 & Hb2 & Hb3).
  split; [exact Hr|].
  measure. rewrite Hb1, Hb2, Hb3. cbn [app Nat.add].
  now rewrite app_nil_r, !Nat.add_0_r.
Qed.

End Results.

(** X11.  When the scanning block is reached, its checkout comes back, the
    scan returns and the result file takes the line, the pipeline writes
    exactly one record, the package name with what the scan returned,
    advances the overall counter once and removes the task of the package
    once. *)
Theorem successful_scan_writes_one_record
    (w : world) (package_name temp_dir github_url repo_dir : string)
    (overall_task : TaskID) (asserts : list string) :
  reaches_scanning w package_name temp_dir github_url ->
  result (clone_repo (git_again w) github_url temp_dir) = Ret repo_dir ->
  new_task w <> overall_task ->
  new_task w <> 0 ->
  result (find_asserts (sources w) repo_dir (new_task w)) = Ret asserts ->
  sink_write w = Ret tt ->
  sink_flush w = Ret tt ->
  let t := trace (process_package w package_name temp_dir overall_task) in
  result (process_package w package_name temp_dir overall_task) = Ret tt
  /\ records t = [(package_name, asserts)]
  /\ advances overall_task t = 1
  /\ removals (new_task w) t = 1.
Proof.
  intros Hreach Hclone Hovr Hnz Hscan Hw Hf. cbn zeta.
  destruct (pipeline_measures w package_name temp_dir github_url
              overall_task Hreach) as (Hr & -> & -> & ->).
  pose proof (scanning_measures w package_name temp_dir overall_task
                github_url repo_dir Hclone Hovr Hnz) as H.
  cbn zeta in H. rewrite Hscan, Hw, Hf in H. now split.
Qed.

Lemma successful_scan_writes_one_record_witness :
  let w := sample_world_repo sample_sources_ordered
             "https://github.com/org/proj" (Ret tt) (Ret tt) in
  let t := trace (process_package w "pkgA" "/tmp/ws" 0) in
  result (process_package w "pkgA" "/tmp/ws" 0) = Ret tt
  /\ records t = [("pkgA", ["assert x"; "assert y"; "assert z"])]
  /\ advances 0 t = 1
  /\ removals 1 t = 1.
Proof.
  apply (successful_scan_writes_one_record
           (sample_world_repo sample_sources_ordered
              "https://github.com/org/proj" (Ret tt) (Ret tt))
           "pkgA" "/tmp/ws" "https://github.com/org/proj" "/tmp/ws/proj" 0).
  - split; [reflexivity|]. left. split; [discriminate|].
    now exists "/tmp/ws/proj".
  - reflexivity.
  - discriminate.
  - discriminate.
  - reflexivity.
  - reflexivity.
  - reflexivity.
Defined.

(** X12.  When the scan raises (a file that cannot be read or decoded), the
    assertions already collected from earlier files are dropped: the
    pipeline writes no record, prints the error, advances the overall
    counter once and removes the task of the package. *)
Theorem failed_scan_writes_no_record
    (w : world) (package_name temp_dir github_url repo_dir : string)
    (overall_task : TaskID) (e : exn) :
  reaches_scanning w package_name temp_dir github_url ->
  result (clone_repo (git_again w) github_url temp_dir) = Ret repo_dir ->
  new_task w <> overall_task ->
  new_task w <> 0 ->
  result (find_asserts (sources w) repo_dir (new_task w)) = Raise e ->
  let t := trace (process_package w package_name temp_dir overall_task) in
  result (process_package w package_name temp_dir overall_task) = Ret tt
  /\ records t = []
  /\ advances overall_task t = 1
  /\ removals (new_task w) t = 1.
Proof.
  intros Hreach Hclone Hovr Hnz Hscan. cbn zeta.
  destruct (pipeline_measures w package_name temp_dir github_url
              overall_task Hreach) as (Hr & -> & -> & ->).
  pose proof (scanning_measures w package_name temp_dir overall_task
                github_url repo_dir Hclone Hovr Hnz) as H.
  cbn zeta in H. rewrite Hscan in H. now split.
Qed.

Lemma failed_scan_writes_no_record_witness :
  let w := sample_world_repo sample_sources_late_failure
             "https://github.com/org/repo" (Ret tt) (Ret tt) in
  let t := trace (process_package w "pkgA" "/" 0) in
  result (process_package w "pkgA" "/" 0) = Ret tt
  /\ records t = []
  /\ advances 0 t = 1
  /\ removals 1 t = 1.
Proof.
  apply (failed_scan_writes_no_record
           (sample_world_repo sample_sources_late_failure
              "https://github.com/org/repo" (Ret tt) (Ret tt))
           "pkgA" "/" "https://github.com/org/repo" "/repo" 0
           (OtherException "UnicodeDecodeError"
                           "'utf-8' codec can't decode byte 0xe9")).
  - split; [reflexivity|]. left. split; [discriminate|]. now exists "/repo".
  - reflexivity.
  - discriminate.
  - discriminate.
  - reflexivity.
Defined.



(** X14.  Whatever the world does, one run of the pipeline appends at most
    one record to the result file, and a record it appends is for the
    package it was called with. *)
Theorem process_package_writes_at_most_one_record
    (w : world) (package_name temp_dir : string) (overall_task : TaskID) :
  records (trace (process_package w package_name temp_dir overall_task)) = []
  \/ exists asserts,
       records (trace (process_package w package_name temp_dir overall_task))
       = [(package_name, asserts)].
Proof.
  pose proof (quiet_records _
                (get_github_url_quiet (pypi_get_github w) package_name))
    as Hg.
  pose proof (quiet_records _
                (get_sdist_url_quiet (pypi_get_sdist w) package_name)) as Hs.
  unfold process_package. mstep. rewrite Hg.
  destruct (result (get_github_url (pypi_get_github w) package_name))
    as [github_url|eg]; mstep; [|now left].
  pose proof (scanning_records w package_name temp_dir overall_task
                github_url) as Hscan.
  unfold PyStr.truthy.
  destruct (String.eqb_spec github_url "") as [->|Hnz]; cbn [negb]; mstep.
  - rewrite Hs.
    destruct (result (get_sdist_url (pypi_get_sdist w) package_name))
      as [sdist_url|es]; mstep; [|now left].
    destruct (negb (negb (sdist_url =? ""))); mstep; [now left|].
    rewrite (quiet_records _ (download_and_extract_sdist_quiet
                                (archive w) sdist_url temp_dir)).
    destruct (result (download_and_extract_sdist
                        (archive w) sdist_url temp_dir)); mstep;
      [|now left].
    destruct Hscan as [-> | [asserts ->]]; [now left|].
    right. now exists asserts.
  - rewrite (quiet_records _ (clone_repo_quiet
                                (git_first w) github_url temp_dir)).
    destruct (result (clone_repo (git_first w) github_url temp_dir)); mstep;
      [|now left].
    destruct Hscan as [-> | [asserts ->]]; [now left|].
    right. now exists asserts.
Qed.

(** X15.  The exit status of [git clone] is never looked at: when the
    checkout leaves nothing behind (the walk of its directory yields no
    entry), the pipeline still writes a record, with an empty list. *)
Theorem empty_checkout_writes_empty_record
    (w : world) (package_name temp_dir github_url repo_dir : string)
    (overall_task : TaskID) :
  reaches_scanning w package_name temp_dir github_url ->
  result (clone_repo (git_again w) github_url temp_dir) = Ret repo_dir ->
  new_task w <> overall_task ->
  new_task w <> 0 ->
  os_walk (sources w) repo_dir = [] ->
  sink_write w = Ret tt ->
  sink_flush w = Ret tt ->
  records (trace (process_package w package_name temp_dir overall_task))
  = [(package_name, [])].
Proof.
  intros Hreach Hclone Hovr Hnz Hwalk Hw Hf.
  destruct (pipeline_measures w package_name temp_dir github_url
              overall_task Hreach) as (_ & -> & _ & _).
  pose proof (scanning_measures w package_name temp_dir overall_task
                github_url repo_dir Hclone Hovr Hnz) as H.
  cbn zeta in H.
  assert (Hscan : result (find_asserts (sources w) repo_dir (new_task w))
                  = Ret []).
  { rewrite find_asserts_paths, Hwalk. reflexivity. }
  rewrite Hscan, Hw, Hf in H. apply H.
Qed.

Lemma empty_checkout_writes_empty_record_witness :
  records
    (trace (process_package
              (sample_world_repo sample_sources_ordered
                 "https://github.com/org/gone" (Ret tt) (Ret tt))
              "pkgA" "/tmp/ws" 0))
  = [("pkgA", [])].
Proof.
  apply (empty_checkout_writes_empty_record
           (sample_world_repo sample_sources_ordered
              "https://github.com/org/gone" (Ret tt) (Ret tt))
           "pkgA" "/tmp/ws" "https://github.com/org/gone" "/tmp/ws/gone" 0).
  - split; [reflexivity|]. left. split; [discriminate|].
    now exists "/tmp/ws/gone".
  - reflexivity.
  - discriminate.
  - discriminate.
  - reflexivity.
  - reflexivity.
  - reflexivity.
Defined.

(* ================================================================= *)
(** ** More on the scan *)




Lemma lstrip_head (s : string) :
  PyStr.lstrip s = ""
  \/ exists c r, PyStr.lstrip s = String c r /\ PyStr.isspace c = false.
Proof.
  induction s as [|c s IH]; [now left|].
  cbn [PyStr.lstrip]. destruct (PyStr.isspace c) eqn:E; [exact IH|].
  right. now exists c, s.
Qed.

Lemma rstrip_keeps_head (c : ascii) (s : string) :
  PyStr.isspace c = false ->
  PyStr.rstrip (String c s) = String c (PyStr.rstrip s).
Proof.
  intros H. cbn [PyStr.rstrip]. rewrite H.
  now destruct (PyStr.rstrip s).
Qed.

Lemma rstrip_idempotent (s : string) :
  PyStr.rstrip (PyStr.rstrip s) = PyStr.rstrip s.
Proof.
  induction s as [|c s IH]; [reflexivity|].
  cbn [PyStr.rstrip].
  destruct (PyStr.rstrip s) as [|d r] eqn:E.
  - destruct (PyStr.isspace c) eqn:Hc; [reflexivity|].
    cbn [PyStr.rstrip]. now rewrite Hc.
  - change (PyStr.rstrip (String c (String d r)))
      with (match PyStr.rstrip (String d r) with
            | EmptyString =>
                if PyStr.isspace c then EmptyString else String c EmptyString
            | r0 => String c r0
            end).
    now rewrite IH.
Qed.

(** Trimming twice is trimming once. *)
Lemma strip_idempotent (s : string) :
  PyStr.strip (PyStr.strip s) = PyStr.strip s.
Proof.
  unfold PyStr.strip.
  destruct (lstrip_head s) as [-> | (c & r & -> & Hc)]; [reflexivity|].
  rewrite (rstrip_keeps_head c r Hc).
  cbn [PyStr.lstrip]. rewrite Hc.
  rewrite (rstrip_keeps_head c _ Hc). now rewrite rstrip_idempotent.
Qed.

Lemma visit_trimmed (render : ast -> string) (node : ast) :
  Forall trimmed (visit render node []).
Proof.
  induction node as [cls attrs children IH] using ast_induction.
  destruct (String.eqb cls "Assert") eqn:E.
  - cbn [visit]. rewrite E. cbn [app]. constructor; [|constructor].
    apply strip_idempotent.
  - rewrite (visit_other _ _ _ _ E).
    induction IH as [|c cs Hc _ IHcs]; [constructor|].
    cbn [flat_map]. apply Forall_app. now split.
Qed.

Lemma scan_paths_trimmed
    (env : scan_env) (task_id : TaskID) (paths asserts found : list string) :
  Forall trimmed asserts ->
  result (scan_paths env task_id paths asserts) = Ret found ->
  Forall trimmed found.
Proof.
  revert asserts. induction paths as [|path rest IH]; intros asserts Hacc.
  - cbn. intros H. now injection H as <-.
  - destruct (read_parse env path) as [tree|e] eqn:E.
    + rewrite (scan_paths_parsed _ _ _ _ _ _ E), result_bind.
      cbn [result snd]. apply IH.
      rewrite visit_appends. apply Forall_app. split; [exact Hacc|].
      apply visit_trimmed.
    + destruct (is_SyntaxError e) eqn:He.
      * rewrite (scan_paths_syntax_error _ _ _ _ _ _ E He), result_bind.
        cbn [result snd]. now apply IH.
      * rewrite (scan_paths_fatal _ _ _ _ _ _ E He). discriminate.
Qed.

(** X17.  Every string that [find_asserts] returns is trimmed: it has no
    white space at either end, whatever the renderer produced. *)
Theorem find_asserts_returns_trimmed
    (env : scan_env) (repo_dir : string) (task_id : TaskID)
    (asserts : list string) :
  result (find_asserts env repo_dir task_id) = Ret asserts ->
  Forall trimmed asserts.
Proof.
  rewrite find_asserts_paths, result_bind. cbn [emit result snd].
  apply scan_paths_trimmed. constructor.
Qed.

Lemma find_asserts_returns_trimmed_witness :
  Forall trimmed ["assert x"; "assert y"; "assert z"].
Proof.
  apply (find_asserts_returns_trimmed sample_sources_ordered "/tmp/ws/proj" 1).
  reflexivity.
Defined.

(* ================================================================= *)
(** ** What the resolver can return *)

Lemma prefix_split (a s : string) :
  String.prefix a s = true -> exists b, s = a ++ b.
Proof.
  revert s; induction a as [|x a IH]; intros s H.
  - now exists s.
  - destruct s as [|y s]; cbn [String.prefix] in H; [discriminate|].
    destruct (ascii_dec x y) as [->|]; [|discriminate].
    destruct (IH _ H) as [b ->]. now exists b.
Qed.

(** No occurrence of [github.com] begins inside an occurrence of [/issues]. *)
Lemma contains_github_after_issues (t : string) :
  PyStr.contains "github.com" ("/issues" ++ t)
  = PyStr.contains "github.com" t.
Proof. reflexivity. Qed.

(** [replace] copies an occurrence of [github.com]: none of its characters
    is a slash. *)
Lemma replace_copies_github (t : string) :
  PyStr.replace "/issues" "" ("github.com" ++ t)
  = "github.com" ++ PyStr.replace "/issues" "" t.
Proof. reflexivity. Qed.

Lemma replace_drops_issues (t : string) :
  PyStr.replace "/issues" "" ("/issues" ++ t) = PyStr.replace "/issues" "" t.
Proof.
  unfold PyStr.replace. cbn [append PyStr.replace_from].
  change (String "/" (String "i" (String "s" (String "s" (String "u"
            (String "e" (String "s" t)))))))
    with ("/issues" ++ t).
  rewrite prefix_app. reflexivity.
Qed.

Lemma replace_keeps_other (c : ascii) (s : string) :
  String.prefix "/issues" (String c s) = false ->
  PyStr.replace "/issues" "" (String c s)
  = String c (PyStr.replace "/issues" "" s).
Proof. intros H. unfold PyStr.replace. cbn [PyStr.replace_from]. now rewrite H. Qed.

(** Removing every [/issues] keeps an occurrence of [github.com]. *)
Lemma replace_issues_keeps_github (s : string) :
  PyStr.contains "github.com" s = true ->
  PyStr.contains "github.com" (PyStr.replace "/issues" "" s) = true.
Proof.
  remember (String.length s) as n eqn:Hn.
  revert s Hn. induction n as [n IH] using lt_wf_ind. intros s Hn Hs.
  destruct s as [|c s]; [discriminate|].
  destruct (String.prefix "/issues" (String c s)) eqn:Hp.
  - apply prefix_split in Hp. destruct Hp as [t Ht]. rewrite Ht in *.
    rewrite contains_github_after_issues in Hs. rewrite replace_drops_issues.
    apply (IH (String.length t)); [|reflexivity | exact Hs].
    rewrite Hn, str_app_length. cbn. lia.
  - rewrite (replace_keeps_other _ _ Hp).
    cbn [PyStr.contains] in Hs |- *. apply orb_true_iff in Hs.
    apply orb_true_iff. destruct Hs as [Hs | Hs].
    + left. apply prefix_split in Hs. destruct Hs as [t Ht].
      rewrite <- (replace_keeps_other _ _ Hp), Ht, replace_copies_github.
      apply prefix_app.
    + right. apply (IH (String.length s)); [|reflexivity | exact Hs].
      rewrite Hn. cbn. lia.
Qed.

(** X18.  What the resolver returns is the empty string or mentions
    github.com: no URL of another host comes out of it, also not after
    [/issues] was cut out of an issue-tracker URL. *)
Theorem resolve_project_urls_mentions_github (d : dict) :
  resolve_project_urls d = ""
  \/ PyStr.contains "github.com" (resolve_project_urls d) = true.
Proof.
  unfold resolve_project_urls.
  destruct (first_regexp_match (dict_values d)) as [g|] eqn:E1.
  - right. apply first_regexp_match_in in E1. destruct E1 as (v & _ & Hv).
    exact (regexp_match_mentions_github g g
             (regexp_match_prefix_stable_aux v g Hv)).
  - destruct (first_github_key d possible_keys) as [u|] eqn:E2.
    + right. now apply first_github_key_in in E2.
    + destruct (first_github_key d possible_issue_keys) as [u|] eqn:E3;
        [|now left].
      right. apply first_github_key_in in E3.
      now apply replace_issues_keeps_github.
Qed.

(* ================================================================= *)
(** ** The general statements on concrete runs *)

Lemma process_package_advances_once_witness :
  advances 0
    (trace (process_package
              (sample_world_archive "https://files.example/pkgA-1.0.tar.gz")
              "pkgA" "/tmp/ws" 0)) = 1.
Proof.
  apply (process_package_advances_once
           (sample_world_archive "https://files.example/pkgA-1.0.tar.gz")
           "pkgA" "/tmp/ws" 0).
  - discriminate.
  - reflexivity.
  - reflexivity.
  - intros e H. vm_compute in H. discriminate.
Defined.

